(** * Honos-Sync: the reconciliation engine of SyncManager.ts, the
    MetadataManager and the ConflictHandler, as a shallow embedding.

    The Obsidian vault is a finite map from paths to files and folders, the
    metadata store is the in-memory record [this.metadata] of the
    MetadataManager, and the network client is a record of operations on an
    abstract server state (its code is not part of the sources, so every
    theorem below quantifies over it).  Effects are threaded through a small
    state-and-exception monad: [Exc] is a rejected promise (a thrown error). *)

From Stdlib Require Import ZArith String Ascii List Bool.
From stdpp Require Import base gmap strings list.

Local Open Scope Z_scope.

(** ** JavaScript string helpers *)

Definition nl : string := String (Ascii.ascii_of_nat 10) EmptyString.

(** A path between double quotes, as the notices print it. *)
Definition quoted (p : string) : string :=
  let dq := String (Ascii.ascii_of_nat 34) EmptyString in (dq ++ p ++ dq)%string.

(** [s.lastIndexOf(c)]: -1 when absent. *)
Fixpoint last_index_of_from (c : ascii) (s : string) (i : Z) (acc : Z) : Z :=
  match s with
  | EmptyString => acc
  | String d s' =>
      last_index_of_from c s' (i + 1) (if Ascii.eqb c d then i else acc)
  end.

Definition last_index_of (c : ascii) (s : string) : Z :=
  last_index_of_from c s 0 (-1).

(** [s.substring(0, n)] (a negative [n] is clamped to 0). *)
Definition js_prefix (n : Z) (s : string) : string :=
  if n <=? 0 then EmptyString else String.substring 0 (Z.to_nat n) s.

(** [s.substring(n)]. *)
Definition js_suffix (n : Z) (s : string) : string :=
  let k := Z.to_nat n in String.substring k (String.length s - k) s.

(** [TFile.name]: the part of the path after the last '/'. *)
Definition basename (p : string) : string :=
  js_suffix (last_index_of "/"%char p + 1) p.

(** [TFile.extension]: the part of the name after its last '.', or empty. *)
Definition extension_of (p : string) : string :=
  let n := basename p in
  let i := last_index_of "."%char n in
  if i <? 0 then EmptyString else js_suffix (i + 1) n.

Definition lower_ascii (a : ascii) : ascii :=
  let n := Ascii.nat_of_ascii a in
  if (65 <=? n)%nat && (n <=? 90)%nat then Ascii.ascii_of_nat (n + 32) else a.

Fixpoint to_lower (s : string) : string :=
  match s with
  | EmptyString => EmptyString
  | String a s' => String (lower_ascii a) (to_lower s')
  end.

Definition is_ws (a : ascii) : bool :=
  let n := Ascii.nat_of_ascii a in
  (n =? 32)%nat || (n =? 9)%nat || (n =? 10)%nat || (n =? 13)%nat
  || (n =? 11)%nat || (n =? 12)%nat.

Fixpoint drop_ws (l : list ascii) : list ascii :=
  match l with
  | [] => []
  | a :: l' => if is_ws a then drop_ws l' else l
  end.

(** [s.trim()]. *)
Definition js_trim (s : string) : string :=
  string_of_list_ascii
    (rev (drop_ws (rev (drop_ws (list_ascii_of_string s))))).

(** Decimal rendering of a count, for the completion notice. *)
Fixpoint digits_of (fuel : nat) (n : Z) (acc : string) : string :=
  match fuel with
  | O => acc
  | S f =>
      let d := String (Ascii.ascii_of_nat (48 + Z.to_nat (n mod 10))) acc in
      if n <? 10 then d else digits_of f (n / 10) d
  end.

Definition Z_to_dec (n : Z) : string := digits_of 64 n EmptyString.

(** [x || d] on an optional number: [undefined] and [0] are falsy. *)
Definition or_else (o : option Z) (d : Z) : Z :=
  match o with
  | Some n => if n =? 0 then d else n
  | None => d
  end.

Definition or0 (o : option Z) : Z := or_else o 0.

(** [x || d] on an optional string: [undefined] and [''] are falsy. *)
Definition str_or (o : option string) (d : string) : string :=
  match o with
  | Some (String a s) => String a s
  | _ => d
  end.

(** [!x] on an optional object. *)
Definition is_none {A} (o : option A) : bool :=
  match o with None => true | Some _ => false end.

(** ** Data model (types.ts) *)

Record LocalFileMetadata := {
  md_path : string;
  md_hash : string;
  md_size : Z;
  md_revision : Z;
  md_parentRevision : Z;
  md_lastSyncedAt : Z;
  md_deviceId : option string
}.

(** [Partial<LocalFileMetadata>]: [None] is an absent key. *)
Record MetaPatch := {
  p_hash : option string;
  p_size : option Z;
  p_revision : option Z;
  p_parentRevision : option Z;
  p_lastSyncedAt : option Z;
  p_deviceId : option string
}.

Record RemoteFile := {
  rf_path : string;
  rf_hash : string;
  rf_revision : option Z;
  rf_size : Z;
  rf_parentRevision : option Z
}.

Record ConflictInfo := {
  currentRevision : Z;
  yourParentRevision : Z
}.

Record ListResult := {
  lr_success : bool;
  lr_files : option (list RemoteFile);
  lr_error : option string
}.

Record UploadResult := {
  ur_success : bool;
  ur_file : option RemoteFile;
  ur_error : option string;
  ur_conflict : option ConflictInfo
}.

Record DownloadResult := {
  dr_success : bool;
  dr_file : option RemoteFile;
  dr_content : option string;
  dr_isConflict : bool
}.

Record DeleteResult := {
  del_success : bool;
  del_conflict : bool
}.

Record MergeResult := {
  mr_success : bool;
  mr_hasConflict : bool;
  mr_mergedContent : option string
}.

Record SyncPluginSettings := {
  s_token : string;
  s_deviceId : string
}.

(** Outcome of a call: a value, a thrown error, or (model only) the bound on
    the depth of the upload / conflict-handler recursion was reached. *)
Inductive Res (A : Type) : Type :=
| Ok (a : A)
| Exc (msg : string)
| OutOfFuel.
Arguments Ok {A} a.
Arguments Exc {A} msg.
Arguments OutOfFuel {A}.

(** A network reply: an answer, or a rejected promise. *)
Inductive Reply (A : Type) : Type :=
| Answer (a : A)
| Rejected (msg : string).
Arguments Answer {A} a.
Arguments Rejected {A} msg.

(** The NetworkClient, over an abstract server state.  Each operation may
    answer or throw. *)
Record Transport (Srv : Type) := {
  t_list : Srv -> Reply ListResult * Srv;
  t_upload : string -> string -> Z -> string -> Srv -> Reply UploadResult * Srv;
  t_download : string -> option Z -> Srv -> Reply DownloadResult * Srv;
  t_delete : string -> Z -> string -> Srv -> Reply DeleteResult * Srv;
  t_merge : string -> string -> Z -> Z -> Srv -> Reply MergeResult * Srv
}.
Arguments t_list {Srv} _ _.
Arguments t_upload {Srv} _ _ _ _ _ _.
Arguments t_download {Srv} _ _ _ _.
Arguments t_delete {Srv} _ _ _ _ _.
Arguments t_merge {Srv} _ _ _ _ _ _.

(** Requests sent to the network, in order. *)
Inductive NetReq :=
| ReqList
| ReqUpload (path : string) (parentRevision : Z)
| ReqDownload (path : string) (revision : option Z)
| ReqDelete (path : string) (parentRevision : Z)
| ReqMerge (path : string) (ancestor their : Z).

(** A vault entry: a file (content and modification time) or a folder. *)
Inductive Node :=
| NFile (content : string) (mtime : Z)
| NFolder.

Record World (Srv : Type) := {
  w_vault : gmap string Node;
  w_meta : gmap string LocalFileMetadata;
  w_disk_ok : bool;          (* whether adapter.write of metadata.json succeeds *)
  w_write_error : string;    (* the message adapter.write rejects with otherwise *)
  w_clock : Z;               (* Date.now() *)
  w_srv : Srv;
  w_netlog : list NetReq;
  w_notices : list string;
  w_syncing : bool;          (* SyncManager.isSyncing *)
  w_settings : SyncPluginSettings
}.
Arguments w_vault {Srv} _.
Arguments w_meta {Srv} _.
Arguments w_disk_ok {Srv} _.
Arguments w_write_error {Srv} _.
Arguments w_clock {Srv} _.
Arguments w_srv {Srv} _.
Arguments w_netlog {Srv} _.
Arguments w_notices {Srv} _.
Arguments w_syncing {Srv} _.
Arguments w_settings {Srv} _.

(** ** The state-and-exception monad *)

Section Engine.
Context {Srv : Type}.

Definition M (A : Type) : Type := World Srv -> Res A * World Srv.

Definition ret {A} (a : A) : M A := fun w => (Ok a, w).

Definition bind {A B} (m : M A) (k : A -> M B) : M B :=
  fun w =>
    match m w with
    | (Ok a, w') => k a w'
    | (Exc e, w') => (Exc e, w')
    | (OutOfFuel, w') => (OutOfFuel, w')
    end.

Definition throw {A} (msg : string) : M A := fun w => (Exc msg, w).

(** [try { m } catch (e) { h(e) }]. *)
Definition try_catch {A} (m : M A) (h : string -> M A) : M A :=
  fun w =>
    match m w with
    | (Exc e, w') => h e w'
    | r => r
    end.

Local Notation "x <- m ;; k" := (bind m (fun x => k))
  (at level 100, m at next level, right associativity).
Local Notation "m ;;; k" := (bind m (fun _ => k))
  (at level 100, right associativity).

Definition upd_vault (f : gmap string Node -> gmap string Node) : M unit :=
  fun w => (Ok tt, {| w_vault := f (w_vault w); w_meta := w_meta w;
    w_disk_ok := w_disk_ok w; w_write_error := w_write_error w; w_clock := w_clock w; w_srv := w_srv w;
    w_netlog := w_netlog w; w_notices := w_notices w;
    w_syncing := w_syncing w; w_settings := w_settings w |}).

Definition upd_meta
    (f : gmap string LocalFileMetadata -> gmap string LocalFileMetadata)
    : M unit :=
  fun w => (Ok tt, {| w_vault := w_vault w; w_meta := f (w_meta w);
    w_disk_ok := w_disk_ok w; w_write_error := w_write_error w; w_clock := w_clock w; w_srv := w_srv w;
    w_netlog := w_netlog w; w_notices := w_notices w;
    w_syncing := w_syncing w; w_settings := w_settings w |}).

(** [new Notice(msg)]. *)
Definition notice (msg : string) : M unit :=
  fun w => (Ok tt, {| w_vault := w_vault w; w_meta := w_meta w;
    w_disk_ok := w_disk_ok w; w_write_error := w_write_error w; w_clock := w_clock w; w_srv := w_srv w;
    w_netlog := w_netlog w; w_notices := w_notices w ++ [msg];
    w_syncing := w_syncing w; w_settings := w_settings w |}).

Definition set_syncing (b : bool) : M unit :=
  fun w => (Ok tt, {| w_vault := w_vault w; w_meta := w_meta w;
    w_disk_ok := w_disk_ok w; w_write_error := w_write_error w; w_clock := w_clock w; w_srv := w_srv w;
    w_netlog := w_netlog w; w_notices := w_notices w;
    w_syncing := b; w_settings := w_settings w |}).

Definition gets {A} (f : World Srv -> A) : M A := fun w => (Ok (f w), w).

(** [Date.now()]. *)
Definition date_now : M Z := gets w_clock.

Definition getSettings : M SyncPluginSettings := gets w_settings.

(** An awaited network call: it is logged, runs on the server state, and
    takes one tick of the clock. *)
Definition net_call {A} (req : NetReq) (f : Srv -> Reply A * Srv) : M A :=
  fun w =>
    let (r, s') := f (w_srv w) in
    (match r with Answer a => Ok a | Rejected e => Exc e end, {| w_vault := w_vault w; w_meta := w_meta w;
      w_disk_ok := w_disk_ok w; w_write_error := w_write_error w; w_clock := w_clock w + 1; w_srv := s';
      w_netlog := w_netlog w ++ [req]; w_notices := w_notices w;
      w_syncing := w_syncing w; w_settings := w_settings w |}).

(** ** The Obsidian vault (the host's file tree) *)

(** [vault.getAbstractFileByPath(p)]. *)
Definition getAbstractFileByPath (p : string) : M (option Node) :=
  gets (fun w => w_vault w !! p).

Definition is_tfile (n : option Node) : bool :=
  match n with Some (NFile _ _) => true | _ => false end.

(** [vault.read(file)]. *)
Definition vault_read (p : string) : M string :=
  n <- getAbstractFileByPath p ;;
  match n with
  | Some (NFile c _) => ret c
  | _ => throw "File not found"
  end.

(** [vault.modify(file, c)]: the write stamps the modification time. *)
Definition vault_modify (p : string) (c : string) : M unit :=
  n <- getAbstractFileByPath p ;;
  match n with
  | Some (NFile _ _) =>
      t <- date_now ;; upd_vault (insert p (NFile c t))
  | _ => throw "File not found"
  end.

(** [vault.create(p, c)]: refuses an existing path. *)
Definition vault_create (p : string) (c : string) : M Node :=
  n <- getAbstractFileByPath p ;;
  match n with
  | Some _ => throw "File already exists."
  | None =>
      t <- date_now ;; upd_vault (insert p (NFile c t)) ;;; ret (NFile c t)
  end.

(** [vault.createFolder(p)]. *)
Definition vault_createFolder (p : string) : M unit :=
  n <- getAbstractFileByPath p ;;
  match n with
  | Some _ => throw "Folder already exists."
  | None => upd_vault (insert p NFolder)
  end.

(** [vault.getFiles()]: the paths of all files. *)
Definition vault_files (v : gmap string Node) : list string :=
  fst <$> filter (fun pn => is_tfile (Some pn.2) = true) (map_to_list v).

(** [file.stat]: the live modification time and size of a file handle. *)
Definition file_stat (p : string) : M (Z * Z) :=
  n <- getAbstractFileByPath p ;;
  match n with
  | Some (NFile c t) => ret (t, Z.of_nat (String.length c))
  | _ => ret (0, 0)
  end.

(** ** MetadataManager *)

(** [save()]: writes metadata.json; a failed write rejects with the
    adapter's own error. *)
Definition save : M unit :=
  ok <- gets w_disk_ok ;;
  if ok then ret tt else (e <- gets w_write_error ;; throw e).

(** [getMetadata(path)]. *)
Definition getMetadata (p : string) : M (option LocalFileMetadata) :=
  gets (fun w => w_meta w !! p).

Definition default_meta (p : string) : LocalFileMetadata :=
  {| md_path := p; md_hash := EmptyString; md_size := 0; md_revision := 0;
     md_parentRevision := 0; md_lastSyncedAt := 0; md_deviceId := None |}.

(** [{ ...current, ...meta, path }]. *)
Definition merge_meta (cur : LocalFileMetadata) (m : MetaPatch) (p : string)
    : LocalFileMetadata :=
  {| md_path := p;
     md_hash := default (md_hash cur) (p_hash m);
     md_size := default (md_size cur) (p_size m);
     md_revision := default (md_revision cur) (p_revision m);
     md_parentRevision := default (md_parentRevision cur) (p_parentRevision m);
     md_lastSyncedAt := default (md_lastSyncedAt cur) (p_lastSyncedAt m);
     md_deviceId := match p_deviceId m with
                    | Some d => Some d | None => md_deviceId cur end |}.

(** [saveMetadata(path, meta)]: the in-memory record is updated before the
    write to disk. *)
Definition saveMetadata (p : string) (m : MetaPatch) : M unit :=
  cur <- getMetadata p ;;
  upd_meta (insert p (merge_meta (default (default_meta p) cur) m p)) ;;;
  save.

(** [deleteMetadata(path)]. *)
Definition deleteMetadata (p : string) : M unit :=
  cur <- getMetadata p ;;
  match cur with
  | Some _ => upd_meta (delete p) ;;; save
  | None => ret tt
  end.

(** [renameMetadata(oldPath, newPath)]. *)
Definition renameMetadata (oldp newp : string) : M unit :=
  cur <- getMetadata oldp ;;
  match cur with
  | Some m =>
      upd_meta (insert newp {| md_path := newp; md_hash := md_hash m;
        md_size := md_size m; md_revision := md_revision m;
        md_parentRevision := md_parentRevision m;
        md_lastSyncedAt := md_lastSyncedAt m; md_deviceId := md_deviceId m |})
      ;;; upd_meta (delete oldp) ;;; save
  | None => ret tt
  end.
(** ** ConflictHandler (src/unnamed/part_000) *)

Context (net : Transport Srv).

(** [new Date().toISOString().replace(/[:.]/g, '-')] at a given time. *)
Context (iso_stamp : Z -> string).

Definition backup_primary (p : string) (t : Z) : string :=
  (p ++ ".conflict-" ++ iso_stamp t ++ ".md")%string.

Definition backup_fallback (p : string) (t : Z) : string :=
  ("conflict-" ++ iso_stamp t ++ "-" ++ basename p)%string.

(** The marked document of handleManualConflict (the template literal,
    trimmed). *)
Definition conflict_document (localContent serverContent backupPath : string)
    : string :=
  js_trim (nl ++ "<<<<<<< LOCAL (Your Version)" ++ nl
    ++ localContent ++ nl
    ++ "=======" ++ nl
    ++ serverContent ++ nl
    ++ ">>>>>>> SERVER (Remote Version)" ++ nl
    ++ nl
    ++ "<!-- Conflict detected. Please resolve manually and re-sync. -->" ++ nl
    ++ "<!-- A backup of the server version has been saved to: "
    ++ backupPath ++ " -->" ++ nl)%string.

(** [handleManualConflict(file, localContent, serverContent)]. *)
Definition handleManualConflict (p localContent serverContent : string)
    : M unit :=
  notice ("❌ Cannot auto-merge " ++ quoted p ++ ". Manual resolution required.")%string
  ;;;
  t <- date_now ;;
  backupPath <-
    try_catch
      (vault_create (backup_primary p t) serverContent ;;;
       ret (backup_primary p t))
      (fun _ =>
         vault_create (backup_fallback p t) serverContent ;;;
         ret (backup_fallback p t)) ;;
  vault_modify p (conflict_document localContent serverContent backupPath)
  ;;;
  notice ("Conflict backup saved: " ++ backupPath)%string.

(** The success test of the auto-merge: [success && !hasConflict &&
    mergedContent] (a non-empty string). *)
Definition merged_content (mr : MergeResult) : option string :=
  if mr_success mr && negb (mr_hasConflict mr) then
    match mr_mergedContent mr with
    | Some (String a s) => Some (String a s)
    | _ => None
    end
  else None.

(** [handleConflict(file, conflictData)]; [onMergeSuccess] is the bound
    [uploadFile] of the SyncManager. *)
Definition handleConflict (onMergeSuccess : string -> M bool) (p : string)
    (conflictData : UploadResult) : M unit :=
  match ur_conflict conflictData with
  | None =>
      notice ("⚠️ Conflict detected in " ++ quoted p ++ ", but no conflict info provided.")%string
  | Some conflict =>
      notice ("⚠️ Conflict detected in " ++ quoted p ++ ". Attempting auto-merge...")%string
      ;;;
      try_catch
        (serverResponse <-
           net_call (ReqDownload p (Some (currentRevision conflict)))
             (t_download net p (Some (currentRevision conflict))) ;;
         let serverContent := default EmptyString (dr_content serverResponse) in
         ancestorContent <-
           (if 0 <? yourParentRevision conflict then
              ancestorResponse <-
                net_call (ReqDownload p (Some (yourParentRevision conflict)))
                  (t_download net p (Some (yourParentRevision conflict))) ;;
              ret (Some (default EmptyString (dr_content ancestorResponse)))
            else ret None) ;;
         localContent <- vault_read p ;;
         merged <-
           match ancestorContent with
           | Some _ =>
               mergeResult <-
                 net_call
                   (ReqMerge p (yourParentRevision conflict)
                      (currentRevision conflict))
                   (t_merge net p localContent (yourParentRevision conflict)
                      (currentRevision conflict)) ;;
               match merged_content mergeResult with
               | Some mc =>
                   notice ("✅ Auto-merged " ++ quoted p)%string ;;;
                   vault_modify p mc ;;;
                   onMergeSuccess p ;;;
                   ret true
               | None => ret false
               end
           | None => ret false
           end ;;
         if merged : bool then ret tt
         else handleManualConflict p localContent serverContent)
        (fun _ => notice ("❌ Error handling conflict for " ++ quoted p)%string)
  end.

(** ** SyncManager *)

Definition rev_or0 (m : option LocalFileMetadata) : Z :=
  match m with Some r => or0 (Some (md_revision r)) | None => 0 end.

(** [result.file?.revision || 0]. *)
Definition response_revision (f : option RemoteFile) : Z :=
  or0 (option_map (fun f => or0 (rf_revision f)) f).

(** [result.error === 'Conflict detected' && result.conflict]. *)
Definition conflict_flagged (r : UploadResult) : bool :=
  match ur_error r, ur_conflict r with
  | Some e, Some _ => String.eqb e "Conflict detected"
  | _, _ => false
  end.

(** [uploadFile(file)].  The conflict handler calls back into [uploadFile];
    [fuel] bounds the depth of that recursion. *)
Fixpoint uploadFile (fuel : nat) (p : string) : M bool :=
  match fuel with
  | O => fun w => (OutOfFuel, w)
  | S fuel' =>
      try_catch
        (content <- vault_read p ;;
         localMeta <- getMetadata p ;;
         settings <- getSettings ;;
         result <-
           net_call (ReqUpload p (rev_or0 localMeta))
             (t_upload net p content (rev_or0 localMeta) (s_deviceId settings)) ;;
         if ur_success result then
           st <- file_stat p ;;
           now <- date_now ;;
           settings' <- getSettings ;;
           let rev := response_revision (ur_file result) in
           saveMetadata p
             {| p_hash := Some (default EmptyString
                                  (option_map rf_hash (ur_file result)));
                p_revision := Some rev;
                p_parentRevision := Some rev;
                p_size := Some st.2;
                p_lastSyncedAt := Some now;
                p_deviceId := Some (s_deviceId settings') |} ;;;
           ret true
         else if conflict_flagged result then
           handleConflict (uploadFile fuel') p result ;;;
           ret false
         else ret false)
        (fun _ => ret false)
  end.

(** The folder part of a path: [path.substring(0, path.lastIndexOf('/'))]. *)
Definition folder_of (p : string) : string :=
  js_prefix (last_index_of "/"%char p) p.

(** [downloadFile(path, revision?)]. *)
Definition downloadFile (p : string) (revision : option Z) : M bool :=
  try_catch
    (result <- net_call (ReqDownload p revision) (t_download net p revision) ;;
     match dr_success result, dr_file result, dr_content result with
     | true, Some rfile, Some content =>
         (if dr_isConflict result then
            notice ("⚠️ Server marked " ++ quoted p ++ " as conflicted.")%string
          else ret tt) ;;;
         file <- getAbstractFileByPath p ;;
         let folderPath := folder_of p in
         folder <- getAbstractFileByPath folderPath ;;
         (if negb (String.eqb folderPath EmptyString) && is_none folder then
            vault_createFolder folderPath
          else ret tt) ;;;
         file' <-
           match file with
           | Some (NFile _ _) => vault_modify p content ;;; ret file
           | None => n <- vault_create p content ;; ret (Some n)
           | Some NFolder => ret file
           end ;;
         (if is_tfile file' then
            now <- date_now ;;
            settings <- getSettings ;;
            saveMetadata p
              {| p_hash := Some (rf_hash rfile);
                 p_revision := Some (or0 (rf_revision rfile));
                 p_parentRevision :=
                   Some (or_else (rf_parentRevision rfile)
                                 (or0 (rf_revision rfile)));
                 p_size := Some (rf_size rfile);
                 p_lastSyncedAt := Some now;
                 p_deviceId := Some (s_deviceId settings) |}
          else ret tt) ;;;
         ret true
     | _, _, _ => ret false
     end)
    (fun _ => ret false).

(** [deleteFile(path)]. *)
Definition deleteFile (p : string) : M bool :=
  try_catch
    (localMeta <- getMetadata p ;;
     settings <- getSettings ;;
     result <-
       net_call (ReqDelete p (rev_or0 localMeta))
         (t_delete net p (rev_or0 localMeta) (s_deviceId settings)) ;;
     (if del_conflict result then
        notice ("⚠️ Conflict when deleting " ++ quoted p)%string
      else ret tt) ;;;
     deleteMetadata p ;;;
     ret (del_success result))
    (fun _ => ret false).

(** [shouldSyncFile(file)]. *)
Definition syncable_exts : list string :=
  ["md"; "txt"; "json"; "css"; "js"; "html"; "xml"; "yaml"; "yml"]%string.

Definition shouldSyncFile (p : string) : bool :=
  existsb (String.eqb (to_lower (extension_of p))) syncable_exts.

(** The download test of the downward phase:
    [!localMeta || remoteRev > localRev]. *)
Definition needs_download (localMeta : option LocalFileMetadata)
    (remote : RemoteFile) : bool :=
  is_none localMeta || (rev_or0 localMeta <? or0 (rf_revision remote)).

(** The upload test of the upward phase:
    [!meta || file.stat.mtime > meta.lastSyncedAt]. *)
Definition needs_upload (meta : option LocalFileMetadata) (mtime : Z) : bool :=
  match meta with
  | None => true
  | Some m => md_lastSyncedAt m <? mtime
  end.

(** Step 2 of [syncVault]: the loop over the remote listing. *)
Fixpoint downward (remoteFiles : list RemoteFile) (downloaded : Z) : M Z :=
  match remoteFiles with
  | [] => ret downloaded
  | remote :: rest =>
      localMeta <- getMetadata (rf_path remote) ;;
      if needs_download localMeta remote then
        success <- downloadFile (rf_path remote) (Some (or0 (rf_revision remote))) ;;
        downward rest (if success then downloaded + 1 else downloaded)
      else downward rest downloaded
  end.

(** Step 3 of [syncVault]: the loop over the syncable local files. *)
Fixpoint upward (fuel : nat) (localFiles : list string) (uploaded : Z) : M Z :=
  match localFiles with
  | [] => ret uploaded
  | file :: rest =>
      meta <- getMetadata file ;;
      st <- file_stat file ;;
      if needs_upload meta st.1 then
        result <- uploadFile fuel file ;;
        upward fuel rest (if result then uploaded + 1 else uploaded)
      else upward fuel rest uploaded
  end.

(** What a call of [syncVault] did; the source reports the counts in its
    completion notice. *)
Inductive SyncOutcome :=
| NotAuthenticated
| Busy
| SyncFailed (msg : string)
| Completed (downloaded uploaded : Z).

Definition completion_notice (downloaded uploaded : Z) : string :=
  match app (if 0 <? downloaded then [String.append (Z_to_dec downloaded) " downloaded"]
             else [])
            (if 0 <? uploaded then [String.append (Z_to_dec uploaded) " uploaded"]
             else []) with
  | [] => "✅ Sync completed: Up to date"%string
  | parts => ("✅ Sync completed: " ++ String.concat ", " parts)%string
  end.

(** [syncVault(silent)]. *)
Definition syncVault (fuel : nat) (silent : bool) : M SyncOutcome :=
  settings <- getSettings ;;
  if String.eqb (s_token settings) EmptyString then
    notice "Not authenticated. Please configure your API token." ;;;
    ret NotAuthenticated
  else
    syncing <- gets w_syncing ;;
    if syncing then
      notice "Sync already in progress..." ;;; ret Busy
    else
      set_syncing true ;;;
      (if silent then ret tt else notice "🔄 Starting sync...") ;;;
      outcome <-
        try_catch
          (listResult <- net_call ReqList (t_list net) ;;
           match lr_success listResult, lr_files listResult with
           | true, Some remoteFiles =>
               downloaded <- downward remoteFiles 0 ;;
               localFiles <- gets (fun w =>
                 filter (fun p => shouldSyncFile p = true) (vault_files (w_vault w))) ;;
               uploaded <- upward fuel localFiles 0 ;;
               (if silent then ret tt
                else notice (completion_notice downloaded uploaded)) ;;;
               ret (Completed downloaded uploaded)
           | _, _ =>
               throw (str_or (lr_error listResult) "Failed to list remote files")
           end)
          (fun msg =>
             notice ("❌ Sync failed: " ++ msg)%string ;;; ret (SyncFailed msg)) ;;
      set_syncing false ;;;
      ret outcome.

End Engine.

(** How the merge attempt of handleConflict can fail, between the server
    states [s1] (after the download of the server's version) and [s3], with
    [k] more network calls: there is no ancestor ([yourParentRevision <= 0]),
    or the ancestor is downloaded and the merge service answers without a
    usable merge. *)
Inductive merge_attempt_fails {Srv} (net : Transport Srv) (p localContent : string)
    (conflict : ConflictInfo) : Srv -> Srv -> Z -> Prop :=
| merge_no_ancestor s :
    yourParentRevision conflict <= 0 ->
    merge_attempt_fails net p localContent conflict s s 0
| merge_refused s1 s2 s3 ancestor mr :
    0 < yourParentRevision conflict ->
    t_download net p (Some (yourParentRevision conflict)) s1 = (Answer ancestor, s2) ->
    t_merge net p localContent (yourParentRevision conflict)
      (currentRevision conflict) s2 = (Answer mr, s3) ->
    merged_content mr = None ->
    merge_attempt_fails net p localContent conflict s1 s3 2.

(** ** Helpers for the properties of the engine *)

(** The patch [b] laid over the patch [a]: the fields [b] sets, and those of
    [a] for the others. *)
Definition patch_over (b a : MetaPatch) : MetaPatch :=
  {| p_hash := match p_hash b with Some x => Some x | None => p_hash a end;
     p_size := match p_size b with Some x => Some x | None => p_size a end;
     p_revision := match p_revision b with Some x => Some x | None => p_revision a end;
     p_parentRevision := match p_parentRevision b with
                         | Some x => Some x | None => p_parentRevision a end;
     p_lastSyncedAt := match p_lastSyncedAt b with
                       | Some x => Some x | None => p_lastSyncedAt a end;
     p_deviceId := match p_deviceId b with Some x => Some x | None => p_deviceId a end |}.

(** Relations between a world and a later one: the network log grew by
    requests satisfying [P]; the metadata record of [q] is the same. *)
Definition log_extends {Srv} (P : NetReq -> Prop) (w w' : World Srv) : Prop :=
  exists l, w_netlog w' = w_netlog w ++ l /\ Forall P l.

Definition meta_kept {Srv} (q : string) (w w' : World Srv) : Prop :=
  w_meta w' !! q = w_meta w !! q.

Section Plugin.
Context {Srv : Type} (net : Transport Srv) (iso_stamp : Z -> string).

(** The 'rename' handler of [onload] (main.ts): [newPath] is the path of the
    renamed entry ([file.path]), whose node is the one the vault holds there. *)
Definition onRename (fuel : nat) (newPath oldPath : string) : @M Srv unit :=
  bind getSettings (fun settings =>
  bind (getAbstractFileByPath newPath) (fun file =>
  if negb (String.eqb (s_token settings) EmptyString) && is_tfile file then
    bind (deleteFile net oldPath) (fun _ =>
    bind (uploadFile net iso_stamp fuel newPath) (fun _ =>
    renameMetadata oldPath newPath))
  else ret tt)).

End Plugin.

(** ** A reference server, used to run the engine on concrete inputs

    Every path keeps its history of versions, newest first.  An upload is
    accepted when it claims the current revision as its parent (0 for a new
    path) and gets the next revision; otherwise it is rejected as a conflict.
    The merge service of this server never merges. *)
Module RefServer.

Record Version := {
  v_rev : Z;
  v_parent : Z;
  v_content : string
}.

Definition state := gmap string (list Version).

Definition describe (p : string) (v : Version) : RemoteFile :=
  {| rf_path := p; rf_hash := v_content v; rf_revision := Some (v_rev v);
     rf_size := Z.of_nat (String.length (v_content v));
     rf_parentRevision := Some (v_parent v) |}.

Definition current_rev (s : state) (p : string) : Z :=
  match s !! p with
  | Some (v :: _) => v_rev v
  | _ => 0
  end.

Definition list_files (s : state) : Reply ListResult * state :=
  (Answer {| lr_success := true;
         lr_files := Some (omap (fun pv => match pv.2 with
                                           | v :: _ => Some (describe pv.1 v)
                                           | [] => None end)
                                (map_to_list s));
         lr_error := None |}, s).

Definition upload (p c : string) (parent : Z) (dev : string) (s : state)
    : Reply UploadResult * state :=
  let cur := current_rev s p in
  if cur =? parent then
    let v := {| v_rev := cur + 1; v_parent := parent; v_content := c |} in
    (Answer {| ur_success := true; ur_file := Some (describe p v);
           ur_error := None; ur_conflict := None |},
     <[p := v :: default [] (s !! p)]> s)
  else
    (Answer {| ur_success := false; ur_file := None;
           ur_error := Some "Conflict detected"%string;
           ur_conflict := Some {| currentRevision := cur;
                                  yourParentRevision := parent |} |}, s).

Definition no_file : DownloadResult :=
  {| dr_success := false; dr_file := None; dr_content := None;
     dr_isConflict := false |}.

Definition download (p : string) (rev : option Z) (s : state)
    : Reply DownloadResult * state :=
  let hist := default [] (s !! p) in
  let found := match rev with
               | Some r => List.find (fun v => v_rev v =? r) hist
               | None => head hist
               end in
  match found with
  | Some v =>
      (Answer {| dr_success := true; dr_file := Some (describe p v);
             dr_content := Some (v_content v); dr_isConflict := false |}, s)
  | None => (Answer no_file, s)
  end.

Definition delete_file (p : string) (parent : Z) (dev : string) (s : state)
    : Reply DeleteResult * state :=
  (Answer {| del_success := true;
         del_conflict := negb (current_rev s p =? parent) |}, delete p s).

Definition merge (p ours : string) (anc their : Z) (s : state)
    : Reply MergeResult * state :=
  (Answer {| mr_success := false; mr_hasConflict := true;
         mr_mergedContent := None |}, s).

Definition net : Transport state :=
  {| t_list := list_files; t_upload := upload; t_download := download;
     t_delete := delete_file; t_merge := merge |}.

Definition stamp (t : Z) : string := Z_to_dec t.

Definition settings : SyncPluginSettings :=
  {| s_token := "token"; s_deviceId := "dev1" |}.

(** A transport for an unreachable server: every call is rejected. *)
Definition offline : Transport state :=
  {| t_list := fun s => (Rejected "Network error", s);
     t_upload := fun _ _ _ _ s => (Rejected "Network error", s);
     t_download := fun _ _ s => (Rejected "Network error", s);
     t_delete := fun _ _ _ s => (Rejected "Network error", s);
     t_merge := fun _ _ _ _ s => (Rejected "Network error", s) |}.

Definition v1 : Version := {| v_rev := 1; v_parent := 0; v_content := "old" |}.
Definition v2 : Version := {| v_rev := 2; v_parent := 1; v_content := "new" |}.

(** The server holds n/b.md at revision 2, made on top of revision 1. *)
Definition srv_b : state := {[ "n/b.md" := [v2; v1] ]}.

Definition d2 : RemoteFile := describe "n/b.md" v2.

Definition record (p : string) (rev synced : Z) : LocalFileMetadata :=
  {| md_path := p; md_hash := EmptyString; md_size := 0; md_revision := rev;
     md_parentRevision := rev; md_lastSyncedAt := synced;
     md_deviceId := None |}.

Definition world (vault : gmap string Node) (meta : gmap string LocalFileMetadata)
    (clock : Z) (srv : state) : World state :=
  {| w_vault := vault; w_meta := meta; w_disk_ok := true; w_write_error := EmptyString; w_clock := clock;
     w_srv := srv; w_netlog := []; w_notices := []; w_syncing := false;
     w_settings := settings |}.

(** A local note whose modification time (100) lies after the clock (0). *)
Definition future_note : World state :=
  world {[ "a.md" := NFile "x" 100 ]} ∅ 0 ∅.

(** A note already in sync: record at revision 1, synced at time 2. *)
Definition synced_note : World state :=
  world {[ "a.md" := NFile "x" 0 ]} {[ "a.md" := record "a.md" 1 2 ]} 5
    {[ "a.md" := [{| v_rev := 1; v_parent := 0; v_content := "x" |}] ]}.

(** A new device: nothing local, n/b.md on the server. *)
Definition fresh_device : World state := world ∅ ∅ 10 srv_b.

(** n/b.md edited locally on top of revision 1 while the server is at 2. *)
Definition stale_edit : World state :=
  world {[ "n/b.md" := NFile "mine" 7; "n" := NFolder ]}
    {[ "n/b.md" := record "n/b.md" 1 5 ]} 10 srv_b.

(** The same, with both backup names of the conflict at time 14 taken. *)
Definition stale_edit_names_taken : World state :=
  world {[ "n/b.md" := NFile "mine" 7; "n" := NFolder;
           "n/b.md.conflict-14.md" := NFile "earlier" 3;
           "conflict-14-b.md" := NFile "other" 3 ]}
    {[ "n/b.md" := record "n/b.md" 1 5 ]} 10 srv_b.

(** A local copy of n/b.md at revision 2. *)
Definition at_rev2 : World state :=
  world {[ "n/b.md" := NFile "new" 7; "n" := NFolder ]}
    {[ "n/b.md" := record "n/b.md" 2 8 ]} 10 srv_b.

(** A note never synced, on an empty server. *)
Definition new_note : World state :=
  world {[ "a.md" := NFile "x" 0 ]} ∅ 0 ∅.

(** What the server answers for a download of version [v] of [p]. *)
Definition served (p : string) (v : Version) : DownloadResult :=
  {| dr_success := true; dr_file := Some (describe p v);
     dr_content := Some (v_content v); dr_isConflict := false |}.

(** The rejection of an upload claiming parent 1 while the server is at 2. *)
Definition conflict_reply : UploadResult :=
  {| ur_success := false; ur_file := None;
     ur_error := Some "Conflict detected"%string;
     ur_conflict := Some {| currentRevision := 2; yourParentRevision := 1 |} |}.

Definition in_flight (token : string) : World state :=
  {| w_vault := ∅; w_meta := ∅; w_disk_ok := true; w_write_error := EmptyString; w_clock := 0;
     w_srv := ∅; w_netlog := []; w_notices := []; w_syncing := true;
     w_settings := {| s_token := token; s_deviceId := "dev1" |} |}.

(** Patches setting one field. *)
Definition revision_patch (r : Z) : MetaPatch :=
  {| p_hash := None; p_size := None; p_revision := Some r;
     p_parentRevision := None; p_lastSyncedAt := None; p_deviceId := None |}.

Definition synced_at_patch (t : Z) : MetaPatch :=
  {| p_hash := None; p_size := None; p_revision := None;
     p_parentRevision := None; p_lastSyncedAt := Some t; p_deviceId := None |}.

(** The reference server with a merge service that merges every request
    into the text "merged". *)
Definition merging : Transport state :=
  {| t_list := list_files; t_upload := upload; t_download := download;
     t_delete := delete_file;
     t_merge := fun _ _ _ _ s =>
       (Answer {| mr_success := true; mr_hasConflict := false;
                  mr_mergedContent := Some "merged"%string |}, s) |}.

(** [synced_note] on a disk that refuses writes. *)
Definition disk_full : World state :=
  {| w_vault := {[ "a.md" := NFile "x" 0 ]};
     w_meta := {[ "a.md" := record "a.md" 1 2 ]};
     w_disk_ok := false; w_write_error := "ENOSPC: no space left on device"; w_clock := 5;
     w_srv := {[ "a.md" := [{| v_rev := 1; v_parent := 0; v_content := "x" |}] ]};
     w_netlog := []; w_notices := []; w_syncing := false;
     w_settings := settings |}.

(** A folder at the path of the server's n/b.md. *)
Definition folder_in_the_way : World state :=
  world {[ "n/b.md" := NFolder; "n" := NFolder ]} ∅ 10 srv_b.

(** a.md, in sync at revision 1, just renamed to b.md in the vault. *)
Definition renamed_note : World state :=
  world {[ "b.md" := NFile "x" 0 ]} {[ "a.md" := record "a.md" 1 2 ]} 5
    {[ "a.md" := [{| v_rev := 1; v_parent := 0; v_content := "x" |}] ]}.

End RefServer.

(** * Proofs *)

Section Proofs.
Context {Srv : Type} (net : Transport Srv) (iso_stamp : Z -> string).

Local Abbreviation M := (@M Srv).

Ltac unfold_engine :=
  unfold deleteMetadata, saveMetadata, save, getMetadata, file_stat,
    vault_createFolder, vault_create, vault_modify, vault_read,
    getAbstractFileByPath, net_call, date_now, getSettings, gets, set_syncing,
    notice, upd_meta, upd_vault, try_catch, throw, bind, ret in *.

Ltac split_all :=
  repeat (match goal with
          | |- context [match ?x with _ => _ end] =>
              lazymatch x with
              | context [match _ with _ => _ end] => fail
              | _ => destruct x eqn:?
              end
          end; simpl in * ).

Ltac manual_cases Hv Hfree :=
  match goal with
  | |- context [w_vault ?w0 !! backup_primary ?i ?p ?t0] =>
      let Hb := fresh "Hb" in
      let Hb2 := fresh "Hb" in
      destruct (w_vault w0 !! backup_primary i p t0) eqn:Hb;
      [ assert (Hb2 : w_vault w0 !! backup_fallback i p t0 = None)
          by (destruct Hfree as [Hf|Hf]; congruence);
        exists (backup_fallback i p t0);
        repeat progress (simpl; rewrite ?Hb, ?Hb2)
      | exists (backup_primary i p t0);
        repeat progress (simpl; rewrite ?Hb) ];
      rewrite ?lookup_insert_ne by congruence;
      repeat progress (simpl; rewrite ?Hv);
      repeat split; auto
  end.

Lemma try_catch_answers {A} (m : M A) (a : A) (w : World Srv) msg :
  fst (try_catch m (fun _ => ret a) w) <> Exc msg.
Proof. unfold try_catch, ret. destruct (m w) as [[] w']; simpl; congruence. Qed.

Lemma downloadFile_answers p rev (w : World Srv) :
  exists b, fst (downloadFile net p rev w) = Ok b.
Proof.
  unfold downloadFile. unfold_engine. simpl. split_all; eauto.
Qed.

Lemma deleteFile_answers p (w : World Srv) :
  exists b, fst (deleteFile net p w) = Ok b.
Proof.
  unfold deleteFile. unfold_engine. simpl. split_all; eauto.
Qed.

Lemma uploadFile_never_exc fuel p (w : World Srv) msg :
  fst (uploadFile net iso_stamp fuel p w) <> Exc msg.
Proof.
  destruct fuel as [|fuel]; simpl.
  - congruence.
  - apply try_catch_answers.
Qed.

Lemma uploadFile_transport_rejects fuel p (w : World Srv) c mt e s' :
  w_vault w !! p = Some (NFile c mt) ->
  t_upload net p c (rev_or0 (w_meta w !! p)) (s_deviceId (w_settings w))
    (w_srv w) = (Rejected e, s') ->
  fst (uploadFile net iso_stamp (S fuel) p w) = Ok false.
Proof.
  intros Hv Hup. simpl. unfold_engine. simpl. rewrite Hv. simpl.
  rewrite Hup. reflexivity.
Qed.

Lemma downloadFile_transport_rejects p rev (w : World Srv) e s' :
  t_download net p rev (w_srv w) = (Rejected e, s') ->
  fst (downloadFile net p rev w) = Ok false.
Proof.
  intros Hd. unfold downloadFile. unfold_engine. simpl. rewrite Hd.
  reflexivity.
Qed.

Lemma deleteFile_transport_rejects p (w : World Srv) e s' :
  t_delete net p (rev_or0 (w_meta w !! p)) (s_deviceId (w_settings w))
    (w_srv w) = (Rejected e, s') ->
  fst (deleteFile net p w) = Ok false.
Proof.
  intros Hd. unfold deleteFile. unfold_engine. simpl. rewrite Hd.
  reflexivity.
Qed.

(** C9: while a pass is in flight, syncVault returns at once: no network
    call, no change to the vault, the metadata store or the flag; it emits
    exactly one notice, the busy notice when an API token is configured and
    the not-authenticated notice otherwise (the token test comes first). *)
Theorem syncVault_in_flight fuel silent (w : World Srv) :
  w_syncing w = true ->
  syncVault net iso_stamp fuel silent w =
    if String.eqb (s_token (w_settings w)) EmptyString then
      (Ok NotAuthenticated,
       snd (notice "Not authenticated. Please configure your API token." w))
    else
      (Ok Busy, snd (notice "Sync already in progress..." w)).
Proof.
  intros Hs. unfold syncVault. unfold_engine. simpl.
  destruct (String.eqb (s_token (w_settings w)) EmptyString); simpl;
    [reflexivity|].
  rewrite Hs. simpl. rewrite Hs. reflexivity.
Qed.

(** C7: whenever the delete request answers (success or not, conflict or
    not), deleteFile leaves no metadata record for the path, even when
    writing metadata.json then fails. *)
Theorem deleteFile_clears_metadata p (w : World Srv) res s' :
  t_delete net p (rev_or0 (w_meta w !! p)) (s_deviceId (w_settings w))
    (w_srv w) = (Answer res, s') ->
  w_meta (snd (deleteFile net p w)) !! p = None.
Proof.
  intros Hd. unfold deleteFile. unfold_engine. simpl. rewrite Hd. simpl.
  destruct (del_conflict res); simpl;
    destruct (w_meta w !! p) eqn:Hm; simpl; try rewrite Hm; simpl;
    try (destruct (w_disk_ok w); simpl; apply lookup_delete_eq); auto.
Qed.

Lemma uploadFile_success_record fuel p (w : World Srv) c mt res s' :
  w_vault w !! p = Some (NFile c mt) ->
  t_upload net p c (rev_or0 (w_meta w !! p)) (s_deviceId (w_settings w))
    (w_srv w) = (Answer res, s') ->
  ur_success res = true ->
  exists m,
    w_meta (snd (uploadFile net iso_stamp (S fuel) p w)) !! p = Some m /\
    md_revision m = response_revision (ur_file res) /\
    md_parentRevision m = response_revision (ur_file res) /\
    md_lastSyncedAt m = w_clock (snd (uploadFile net iso_stamp (S fuel) p w)) /\
    w_clock (snd (uploadFile net iso_stamp (S fuel) p w)) = w_clock w + 1.
Proof.
  intros Hv Hup Hs. simpl. unfold_engine. simpl. rewrite Hv. simpl.
  rewrite Hup. simpl. rewrite Hs. simpl. rewrite Hv. simpl.
  destruct (w_disk_ok w); simpl; eexists; rewrite lookup_insert_eq;
    repeat split; reflexivity.
Qed.

(** C4: after an upload the server accepted, the record of the path has the
    revision the server assigned ([result.file?.revision || 0]) as both its
    revision and its parent revision, and its lastSyncedAt is the clock when
    the upload completed. *)
Theorem uploadFile_success_metadata fuel p (w : World Srv) c mt res s' :
  w_vault w !! p = Some (NFile c mt) ->
  t_upload net p c (rev_or0 (w_meta w !! p)) (s_deviceId (w_settings w))
    (w_srv w) = (Answer res, s') ->
  ur_success res = true ->
  exists m,
    w_meta (snd (uploadFile net iso_stamp (S fuel) p w)) !! p = Some m /\
    md_revision m = response_revision (ur_file res) /\
    md_parentRevision m = response_revision (ur_file res) /\
    md_lastSyncedAt m = w_clock (snd (uploadFile net iso_stamp (S fuel) p w)).
Proof.
  intros Hv Hup Hs.
  destruct (uploadFile_success_record fuel p w c mt res s' Hv Hup Hs)
    as (m & H1 & H2 & H3 & H4 & _).
  exists m. auto.
Qed.

Lemma try_catch_notice_never_exc {A} (m : M A) (msg : string)
    (k : string -> M A) (w : World Srv) e :
  (forall e' w', fst (k e' w') <> Exc e) ->
  fst (try_catch m k w) <> Exc e.
Proof.
  intros Hk. unfold try_catch. destruct (m w) as [[a|e'|] w']; simpl;
    [congruence|apply Hk|congruence].
Qed.

Lemma handleConflict_never_exc onMergeSuccess p r (w : World Srv) e :
  fst (handleConflict net iso_stamp onMergeSuccess p r w) <> Exc e.
Proof.
  unfold handleConflict. destruct (ur_conflict r) as [conflict|].
  - unfold bind at 1, notice at 1. simpl.
    apply try_catch_notice_never_exc; [exact EmptyString|].
    intros e' w'. unfold notice. simpl. congruence.
  - unfold notice. simpl. congruence.
Qed.

(** C5: when the server rejects an upload, uploadFile hands the file and the
    upload result to the conflict resolver exactly when the result is flagged
    as a conflict ([error === 'Conflict detected'] with conflict data), and
    then reports [false]; any other rejection is reported as [false] with
    nothing else done. *)
Theorem uploadFile_conflict_routing fuel p (w : World Srv) c mt res s' :
  w_vault w !! p = Some (NFile c mt) ->
  t_upload net p c (rev_or0 (w_meta w !! p)) (s_deviceId (w_settings w))
    (w_srv w) = (Answer res, s') ->
  ur_success res = false ->
  let w1 := snd (net_call (ReqUpload p (rev_or0 (w_meta w !! p)))
                  (t_upload net p c (rev_or0 (w_meta w !! p))
                     (s_deviceId (w_settings w))) w) in
  uploadFile net iso_stamp (S fuel) p w =
    if conflict_flagged res then
      bind (handleConflict net iso_stamp (uploadFile net iso_stamp fuel) p res)
        (fun _ => ret false) w1
    else (Ok false, w1).
Proof.
  intros Hv Hup Hs w1. subst w1. simpl. unfold vault_read, getMetadata,
    getSettings, getAbstractFileByPath, gets, net_call, try_catch.
  unfold bind at 1 2 3 4. simpl. rewrite Hv. simpl.
  unfold bind at 1. simpl. rewrite Hup. simpl. rewrite Hs.
  destruct (conflict_flagged res); [|reflexivity].
  unfold bind.
  match goal with
  | |- context [handleConflict ?n ?i ?o ?p ?r ?w] =>
      pose proof (handleConflict_never_exc o p r w) as Hne;
      destruct (handleConflict n i o p r w) as [[u|e|] w2]
  end; simpl; try reflexivity.
  exfalso. apply (Hne e). reflexivity.
Qed.

Lemma last_index_of_from_range c s : forall i acc,
  last_index_of_from c s i acc = acc \/
  (i <= last_index_of_from c s i acc < i + Z.of_nat (String.length s)).
Proof.
  induction s as [|d s IH]; intros i acc; simpl; [left; reflexivity|].
  destruct (IH (i + 1) (if Ascii.eqb c d then i else acc)) as [H|H].
  - rewrite H. destruct (Ascii.eqb c d); [right; lia|left; reflexivity].
  - right. lia.
Qed.

Lemma substring_prefix_length (s : string) : forall n,
  String.length (String.substring 0 n s) = Nat.min n (String.length s).
Proof.
  induction s as [|a s IH]; intros [|n]; simpl; auto.
Qed.

Lemma folder_of_not_self p :
  folder_of p <> EmptyString -> folder_of p <> p.
Proof.
  unfold folder_of, js_prefix, last_index_of. intros Hne Heq.
  destruct (last_index_of_from_range "/"%char p 0 (-1)) as [H|H].
  { rewrite H in Hne. simpl in Hne. congruence. }
  destruct (last_index_of_from "/"%char p 0 (-1) <=? 0) eqn:Hle;
    [congruence|].
  apply Z.leb_gt in Hle.
  apply (f_equal String.length) in Heq.
  rewrite substring_prefix_length in Heq. lia.
Qed.

Lemma folder_of_cases p :
  folder_of p = EmptyString \/ folder_of p <> p.
Proof.
  destruct (String.eqb (folder_of p) EmptyString) eqn:E.
  - left. apply String.eqb_eq. exact E.
  - right. apply folder_of_not_self. apply String.eqb_neq. exact E.
Qed.

Lemma downloadFile_success_record p rev (w : World Srv) rf content isc s' :
  t_download net p rev (w_srv w) =
    (Answer {| dr_success := true; dr_file := Some rf;
               dr_content := Some content; dr_isConflict := isc |}, s') ->
  w_vault w !! p <> Some NFolder ->
  exists m,
    w_meta (snd (downloadFile net p rev w)) !! p = Some m /\
    md_revision m = or0 (rf_revision rf) /\
    md_parentRevision m = or_else (rf_parentRevision rf) (or0 (rf_revision rf)) /\
    md_lastSyncedAt m = w_clock (snd (downloadFile net p rev w)) /\
    w_clock (snd (downloadFile net p rev w)) = w_clock w + 1.
Proof.
  intros Hd Hnf. unfold downloadFile. unfold_engine. simpl. rewrite Hd.
  simpl.
  destruct (folder_of_cases p) as [Hfo|Hfo].
  - rewrite Hfo.
    destruct (w_vault w !! p) as [[c mt|]|] eqn:Hp; [|congruence|];
      destruct isc; repeat progress (simpl; rewrite ?Hp, ?lookup_insert_eq);
      destruct (w_disk_ok w); simpl; eexists;
      rewrite lookup_insert_eq; repeat split; reflexivity.
  - destruct (w_vault w !! p) as [[c mt|]|] eqn:Hp; [|congruence|];
      destruct isc;
      destruct (w_vault w !! folder_of p) eqn:Hf;
      destruct (String.eqb (folder_of p) EmptyString);
      repeat progress (simpl; rewrite ?Hp, ?Hf, ?lookup_insert_eq);
      rewrite ?lookup_insert_ne by exact Hfo;
      repeat progress (simpl; rewrite ?Hp, ?Hf, ?lookup_insert_eq);
      destruct (w_disk_ok w); simpl; eexists;
      rewrite lookup_insert_eq; repeat split; reflexivity.
Qed.

Lemma downloadFile_frame p rev (w : World Srv) :
  w_netlog (snd (downloadFile net p rev w)) = w_netlog w ++ [ReqDownload p rev]
  /\ (forall q, q <> p ->
        w_meta (snd (downloadFile net p rev w)) !! q = w_meta w !! q).
Proof.
  unfold downloadFile. unfold_engine. simpl. split_all;
    split; auto; intros q Hq; rewrite ?lookup_insert_ne; auto.
Qed.

(** What downloadFile answers when the server sends the file and its
    content: true on a folder (nothing is written there), otherwise whether
    the metadata write succeeded. *)
Lemma downloadFile_usable_result p rev (w : World Srv) rf content isc s' :
  t_download net p rev (w_srv w) =
    (Answer {| dr_success := true; dr_file := Some rf;
               dr_content := Some content; dr_isConflict := isc |}, s') ->
  fst (downloadFile net p rev w) =
    Ok (match w_vault w !! p with Some NFolder => true | _ => w_disk_ok w end).
Proof.
  intros Hd. unfold downloadFile. unfold_engine. simpl. rewrite Hd. simpl.
  destruct (folder_of_cases p) as [Hfo|Hfo].
  - rewrite Hfo.
    destruct (w_vault w !! p) as [[c mt|]|] eqn:Hp;
      destruct isc; repeat progress (simpl; rewrite ?Hp, ?lookup_insert_eq);
      destruct (w_disk_ok w); reflexivity.
  - destruct (w_vault w !! p) as [[c mt|]|] eqn:Hp;
      destruct isc;
      destruct (w_vault w !! folder_of p) eqn:Hf;
      destruct (String.eqb (folder_of p) EmptyString);
      repeat progress (simpl; rewrite ?Hp, ?Hf, ?lookup_insert_eq);
      rewrite ?lookup_insert_ne by exact Hfo;
      repeat progress (simpl; rewrite ?Hp, ?Hf, ?lookup_insert_eq);
      destruct (w_disk_ok w); reflexivity.
Qed.

Lemma downloadFile_true_iff p rev (w : World Srv) :
  fst (downloadFile net p rev w) = Ok true <->
  (exists rf content isc s',
     t_download net p rev (w_srv w) =
       (Answer {| dr_success := true; dr_file := Some rf;
                  dr_content := Some content; dr_isConflict := isc |}, s')) /\
  (w_disk_ok w = true \/ w_vault w !! p = Some NFolder).
Proof.
  destruct (t_download net p rev (w_srv w)) as [[r|e] s'] eqn:Hd.
  - destruct r as [[] [rf|] [c|] isc].
    1: { rewrite (downloadFile_usable_result p rev w rf c isc s' Hd).
         destruct (w_vault w !! p) as [[c' mt|]|], (w_disk_ok w);
           split; intros H;
           first [ split; [do 4 eexists; reflexivity|];
                   first [left; reflexivity | right; reflexivity]
                 | congruence
                 | destruct H as [_ [H|H]]; congruence ]. }
    all: split; [|intros [(rf' & c' & isc' & s'' & H) _]; congruence].
    all: intros H; exfalso.
    all: unfold downloadFile in H; unfold_engine; simpl in H;
      rewrite Hd in H; simpl in H; discriminate H.
  - rewrite (downloadFile_transport_rejects p rev w e s' Hd).
    split; [congruence|intros [(rf & c & isc & s'' & H) _]; congruence].
Qed.

Lemma deleteFile_true_iff p (w : World Srv) :
  fst (deleteFile net p w) = Ok true <->
  (exists res s',
     t_delete net p (rev_or0 (w_meta w !! p)) (s_deviceId (w_settings w))
       (w_srv w) = (Answer res, s') /\ del_success res = true) /\
  (w_disk_ok w = true \/ w_meta w !! p = None).
Proof.
  unfold deleteFile. unfold_engine. simpl.
  destruct (t_delete net p (rev_or0 (w_meta w !! p)) (s_deviceId (w_settings w))
              (w_srv w)) as [[res|e] s'] eqn:Hd; simpl.
  - destruct (del_conflict res), (w_meta w !! p) eqn:Hm, (w_disk_ok w),
      (del_success res) eqn:Hs; simpl; rewrite ?Hm; simpl;
      split; intros H;
      first [ split; [do 2 eexists; split; [reflexivity|exact Hs]|];
                first [left; reflexivity | right; reflexivity]
            | congruence
            | destruct H as [(res' & s'' & Hr & Hs') [H|H]];
              inversion Hr; subst; congruence ].
  - split; [congruence|intros [(res & s'' & H & _) _]; discriminate H].
Qed.

Lemma uploadFile_true_iff fuel p (w : World Srv) :
  fst (uploadFile net iso_stamp (S fuel) p w) = Ok true <->
  (exists c mt res s',
     w_vault w !! p = Some (NFile c mt) /\
     t_upload net p c (rev_or0 (w_meta w !! p)) (s_deviceId (w_settings w))
       (w_srv w) = (Answer res, s') /\
     ur_success res = true) /\
  w_disk_ok w = true.
Proof.
  destruct (w_vault w !! p) as [[c mt|]|] eqn:Hv.
  2, 3: simpl; unfold_engine; simpl; rewrite Hv; simpl;
    split; [congruence|intros [(c & mt & res & s' & H & _) _]; discriminate H].
  destruct (t_upload net p c (rev_or0 (w_meta w !! p)) (s_deviceId (w_settings w))
              (w_srv w)) as [[res|e] s'] eqn:Hup.
  2: { rewrite (uploadFile_transport_rejects fuel p w c mt e s' Hv Hup).
       split; [congruence|].
       intros [(c' & mt' & res & s'' & Hv' & Hu & _) _].
       inversion Hv'; subst. congruence. }
  destruct (ur_success res) eqn:Hs.
  - simpl. unfold_engine. simpl. rewrite Hv. simpl.
    rewrite Hup. simpl. rewrite Hs. simpl. rewrite Hv. simpl.
    destruct (w_disk_ok w); simpl; split; intros H;
      first [ split; [do 4 eexists; split; [reflexivity|split; eauto]|]; reflexivity
            | congruence
            | destruct H as [_ H]; congruence ].
  - split.
    + simpl. unfold vault_read, getMetadata, getSettings,
        getAbstractFileByPath, gets, net_call, try_catch.
      unfold bind at 1 2 3 4. simpl. rewrite Hv. simpl.
      unfold bind at 1. simpl. rewrite Hup. simpl. rewrite Hs.
      destruct (conflict_flagged res); [|simpl; congruence].
      unfold bind. intros H.
      match type of H with
      | context [handleConflict ?n ?i ?o ?p ?r ?w1] =>
          destruct (handleConflict n i o p r w1) as [[u|e|] w2]
      end; simpl in H; discriminate H.
    + intros [(c' & mt' & res' & s'' & Hv' & Hu & Hs') _].
      inversion Hv'; subst. rewrite Hup in Hu.
      inversion Hu; subst. congruence.
Qed.

(** C10: the single-file operations never let an exception escape: whatever
    the transport, the vault and the metadata store do, uploadFile,
    downloadFile and deleteFile end with a boolean (uploadFile may only
    exhaust the model's recursion bound).  Each answers [true] only when
    every step it took succeeded, so every failure is reported as [false]:
    a rejected network call; for uploadFile a path that is no file (the
    file-tree read fails) or a refused upload; a failed write of the
    metadata store.  (downloadFile's own steps on the file tree are guarded
    by existence checks and do not fail in this model; on a folder it writes
    neither the file nor the store, and deleteFile writes the store only
    when the path has a record.) *)
Theorem single_file_ops_never_throw fuel p rev (w : World Srv) :
  (forall msg, fst (uploadFile net iso_stamp fuel p w) <> Exc msg) /\
  (exists b, fst (downloadFile net p rev w) = Ok b) /\
  (exists b, fst (deleteFile net p w) = Ok b) /\
  (forall c mt e s',
     w_vault w !! p = Some (NFile c mt) ->
     t_upload net p c (rev_or0 (w_meta w !! p)) (s_deviceId (w_settings w))
       (w_srv w) = (Rejected e, s') ->
     fst (uploadFile net iso_stamp (S fuel) p w) = Ok false) /\
  (forall e s', t_download net p rev (w_srv w) = (Rejected e, s') ->
     fst (downloadFile net p rev w) = Ok false) /\
  (forall e s',
     t_delete net p (rev_or0 (w_meta w !! p)) (s_deviceId (w_settings w))
       (w_srv w) = (Rejected e, s') ->
     fst (deleteFile net p w) = Ok false) /\
  (fst (uploadFile net iso_stamp (S fuel) p w) = Ok true <->
   (exists c mt res s',
      w_vault w !! p = Some (NFile c mt) /\
      t_upload net p c (rev_or0 (w_meta w !! p)) (s_deviceId (w_settings w))
        (w_srv w) = (Answer res, s') /\
      ur_success res = true) /\
   w_disk_ok w = true) /\
  (fst (downloadFile net p rev w) = Ok true <->
   (exists rf content isc s',
      t_download net p rev (w_srv w) =
        (Answer {| dr_success := true; dr_file := Some rf;
                   dr_content := Some content; dr_isConflict := isc |}, s')) /\
   (w_disk_ok w = true \/ w_vault w !! p = Some NFolder)) /\
  (fst (deleteFile net p w) = Ok true <->
   (exists res s',
      t_delete net p (rev_or0 (w_meta w !! p)) (s_deviceId (w_settings w))
        (w_srv w) = (Answer res, s') /\ del_success res = true) /\
   (w_disk_ok w = true \/ w_meta w !! p = None)) /\
  (is_tfile (w_vault w !! p) = false ->
     fst (uploadFile net iso_stamp (S fuel) p w) = Ok false) /\
  (w_disk_ok w = false ->
     forall c mt res s',
     w_vault w !! p = Some (NFile c mt) ->
     t_upload net p c (rev_or0 (w_meta w !! p)) (s_deviceId (w_settings w))
       (w_srv w) = (Answer res, s') ->
     ur_success res = true ->
     fst (uploadFile net iso_stamp (S fuel) p w) = Ok false) /\
  (w_disk_ok w = false -> w_vault w !! p <> Some NFolder ->
     fst (downloadFile net p rev w) = Ok false) /\
  (w_disk_ok w = false -> w_meta w !! p <> None ->
     fst (deleteFile net p w) = Ok false).
Proof.
  split; [intros; apply uploadFile_never_exc|].
  split; [apply downloadFile_answers|].
  split; [apply deleteFile_answers|].
  split; [intros; eapply uploadFile_transport_rejects; eauto|].
  split; [intros; eapply downloadFile_transport_rejects; eauto|].
  split; [intros; eapply deleteFile_transport_rejects; eauto|].
  split; [apply uploadFile_true_iff|].
  split; [apply downloadFile_true_iff|].
  split; [apply deleteFile_true_iff|].
  split.
  { intros Hf. simpl. unfold_engine. simpl.
    destruct (w_vault w !! p) as [[c mt|]|]; simpl in *; congruence. }
  split.
  { intros Hdk c mt res s' Hv Hup Hs.
    simpl. unfold_engine. simpl. rewrite Hv. simpl.
    rewrite Hup. simpl. rewrite Hs. simpl. rewrite Hv. simpl.
    rewrite Hdk. reflexivity. }
  split.
  { intros Hdk Hnf.
    destruct (downloadFile_answers p rev w) as [[] Hb]; [|exact Hb].
    apply downloadFile_true_iff in Hb as [_ [H|H]]; congruence. }
  intros Hdk Hm.
  destruct (deleteFile_answers p w) as [[] Hb]; [|exact Hb].
  apply deleteFile_true_iff in Hb as [_ [H|H]]; congruence.
Qed.

Lemma filter_ext_in {A} (P1 P2 : A -> Prop)
    `{!forall x, Decision (P1 x)} `{!forall x, Decision (P2 x)} (l : list A) :
  (forall x, x ∈ l -> (P1 x <-> P2 x)) -> filter P1 l = filter P2 l.
Proof.
  induction l as [|a l IH]; intros Hiff; [reflexivity|].
  assert (Ha : P1 a <-> P2 a) by (apply Hiff; left).
  assert (Hl : filter P1 l = filter P2 l)
    by (apply IH; intros x Hx; apply Hiff; right; exact Hx).
  destruct (decide (P1 a)) as [H1|H1].
  - rewrite !filter_cons_True by tauto. rewrite Hl. reflexivity.
  - rewrite !filter_cons_False by tauto. exact Hl.
Qed.

(** The request the downward phase sends for a descriptor. *)
Lemma downward_requests (rs : list RemoteFile) : forall d (w : World Srv),
  NoDup (rf_path <$> rs) ->
  w_netlog (snd (downward net rs d w)) =
    w_netlog w ++
    ((fun r => ReqDownload (rf_path r) (Some (or0 (rf_revision r)))) <$>
       filter (fun r => needs_download (w_meta w !! rf_path r) r = true) rs).
Proof.
  induction rs as [|r rs IH]; intros d w Hnd; simpl.
  - rewrite app_nil_r. reflexivity.
  - simpl in Hnd. rewrite NoDup_cons in Hnd. destruct Hnd as [Hnotin Hnd].
    unfold bind at 1, getMetadata, gets. simpl.
    destruct (needs_download (w_meta w !! rf_path r) r) eqn:Hc.
    + rewrite filter_cons_True by exact Hc. simpl.
      unfold bind.
      destruct (downloadFile_answers (rf_path r) (Some (or0 (rf_revision r))) w)
        as [b Hb].
      destruct (downloadFile_frame (rf_path r) (Some (or0 (rf_revision r))) w)
        as [Hlog Hmeta].
      destruct (downloadFile net (rf_path r) (Some (or0 (rf_revision r))) w)
        as [res w1] eqn:Hdl.
      simpl in Hb, Hlog, Hmeta. subst res.
      rewrite IH by exact Hnd. rewrite Hlog, <- app_assoc. simpl.
      f_equal. f_equal. f_equal.
      apply filter_ext_in. intros x Hx.
      rewrite Hmeta; [tauto|].
      intros Heq. apply Hnotin. rewrite <- Heq.
      apply list_elem_of_fmap_2. exact Hx.
    + rewrite filter_cons_False by congruence.
      apply IH. exact Hnd.
Qed.

(** C3: the downward phase sends a download request for a descriptor of the
    listing exactly when the store has no record for its path or the remote
    revision is strictly greater than the stored one ([needs_download]); in
    particular none when the revisions are equal, whatever the hashes.  With
    the listing's paths distinct (it is keyed by path), the requests are
    those of the descriptors that pass the test on the store as it was when
    the phase began, in listing order. *)
Theorem downward_downloads_iff (rs : list RemoteFile) d (w : World Srv) :
  NoDup (rf_path <$> rs) ->
  w_netlog (snd (downward net rs d w)) =
    w_netlog w ++
    ((fun r => ReqDownload (rf_path r) (Some (or0 (rf_revision r)))) <$>
       filter (fun r => needs_download (w_meta w !! rf_path r) r = true) rs) /\
  (forall r m, w_meta w !! rf_path r = Some m ->
     (needs_download (w_meta w !! rf_path r) r = true <->
      md_revision m < or0 (rf_revision r))).
Proof.
  intros Hnd. split; [apply downward_requests; exact Hnd|].
  intros r m Hm. rewrite Hm. unfold needs_download, rev_or0, or0, or_else.
  simpl. rewrite Z.ltb_lt.
  destruct (md_revision m =? 0) eqn:Hz; [apply Z.eqb_eq in Hz; rewrite Hz|];
    tauto.
Qed.

(** The downward phase downloads [remote] with [downloadFile(path, remoteRev)]
    when the test passes. *)
Lemma downward_single remote d (w : World Srv) :
  needs_download (w_meta w !! rf_path remote) remote = true ->
  snd (downward net [remote] d w) =
    snd (downloadFile net (rf_path remote) (Some (or0 (rf_revision remote))) w).
Proof.
  intros Hc. simpl. unfold bind at 1, getMetadata, gets. simpl. rewrite Hc.
  unfold bind.
  destruct (downloadFile net (rf_path remote) (Some (or0 (rf_revision remote))) w)
    as [[b|e|] w1]; reflexivity.
Qed.

(** C2 (as the code does it): when the downward phase downloads a descriptor
    and the server answers with a file and its content, and the path is not a
    folder in the vault, the record of the path takes the revision of the
    server's answer ([file.revision || 0]) and, as parent revision, the
    server's parent revision of that version ([file.parentRevision ||
    file.revision || 0]), and its lastSyncedAt is the clock at the write. *)
Theorem downward_download_metadata remote d (w : World Srv) rf content isc s' :
  needs_download (w_meta w !! rf_path remote) remote = true ->
  t_download net (rf_path remote) (Some (or0 (rf_revision remote))) (w_srv w) =
    (Answer {| dr_success := true; dr_file := Some rf;
               dr_content := Some content; dr_isConflict := isc |}, s') ->
  w_vault w !! rf_path remote <> Some NFolder ->
  exists m,
    w_meta (snd (downward net [remote] d w)) !! rf_path remote = Some m /\
    md_revision m = or0 (rf_revision rf) /\
    md_parentRevision m = or_else (rf_parentRevision rf) (or0 (rf_revision rf)) /\
    md_lastSyncedAt m = w_clock (snd (downward net [remote] d w)).
Proof.
  intros Hc Hd Hnf. rewrite (downward_single remote d w Hc).
  destruct (downloadFile_success_record _ _ w rf content isc s' Hd Hnf)
    as (m & H1 & H2 & H3 & H4 & _).
  exists m. auto.
Qed.

(** A successful download onto a folder answers true and stores nothing. *)
Lemma downloadFile_folder_untouched p rev (w : World Srv) rf content isc s' :
  t_download net p rev (w_srv w) =
    (Answer {| dr_success := true; dr_file := Some rf;
               dr_content := Some content; dr_isConflict := isc |}, s') ->
  w_vault w !! p = Some NFolder ->
  fst (downloadFile net p rev w) = Ok true /\
  w_meta (snd (downloadFile net p rev w)) = w_meta w.
Proof.
  intros Hd Hp. unfold downloadFile. unfold_engine. simpl. rewrite Hd. simpl.
  destruct isc; simpl; rewrite Hp; simpl;
    destruct (String.eqb (folder_of p) EmptyString); simpl;
    destruct (w_vault w !! folder_of p) eqn:Hf; simpl;
    repeat progress (simpl; rewrite ?Hp, ?Hf); auto;
    rewrite lookup_insert_ne; try (rewrite Hp; auto);
    intros Heq; rewrite Heq, Hp in Hf; discriminate.
Qed.

(** C8 (as the code does it): after a download where the server answered
    with a file and its content, onto a path that is not a folder, and after
    an upload the server accepted, the stored revision is the revision
    carried by the server's answer ([file.revision || 0]); it is never
    compared with the revision stored before.  A download onto a folder
    answers true but stores nothing, so the stored record stays as it was. *)
Theorem stored_revision_is_servers (w : World Srv) p :
  (forall rev rf content isc s',
     t_download net p rev (w_srv w) =
       (Answer {| dr_success := true; dr_file := Some rf;
                  dr_content := Some content; dr_isConflict := isc |}, s') ->
     w_vault w !! p <> Some NFolder ->
     exists m,
       w_meta (snd (downloadFile net p rev w)) !! p = Some m /\
       md_revision m = or0 (rf_revision rf)) /\
  (forall rev rf content isc s',
     t_download net p rev (w_srv w) =
       (Answer {| dr_success := true; dr_file := Some rf;
                  dr_content := Some content; dr_isConflict := isc |}, s') ->
     w_vault w !! p = Some NFolder ->
     fst (downloadFile net p rev w) = Ok true /\
     w_meta (snd (downloadFile net p rev w)) = w_meta w) /\
  (forall fuel c mt res s',
     w_vault w !! p = Some (NFile c mt) ->
     t_upload net p c (rev_or0 (w_meta w !! p)) (s_deviceId (w_settings w))
       (w_srv w) = (Answer res, s') ->
     ur_success res = true ->
     exists m,
       w_meta (snd (uploadFile net iso_stamp (S fuel) p w)) !! p = Some m /\
       md_revision m = response_revision (ur_file res)).
Proof.
  split; [|split].
  - intros rev rf content isc s' Hd Hnf.
    destruct (downloadFile_success_record p rev w rf content isc s' Hd Hnf)
      as (m & H1 & H2 & _).
    exists m. auto.
  - intros rev rf content isc s' Hd Hp.
    exact (downloadFile_folder_untouched p rev w rf content isc s' Hd Hp).
  - intros fuel c mt res s' Hv Hup Hs.
    destruct (uploadFile_success_record fuel p w c mt res s' Hv Hup Hs)
      as (m & H1 & H2 & _).
    exists m. auto.
Qed.

(** C6 (as the code does it): when the merge attempt fails (no ancestor
    since [yourParentRevision <= 0], or the merge service answers with a
    failure, a residual conflict or no merged content) and one of the two
    backup names (the primary one, or the flattened fallback) is free, the
    resolver adds exactly one file, the backup, holding the server's content
    ([content || '']), overwrites the local file with the marked document
    ([conflict_document]: both contents between conflict delimiters and a
    comment naming the backup path), and leaves the metadata store as it
    was. *)
Theorem handleConflict_manual_fallback onMergeSuccess p (w : World Srv) res
    conflict c mt r1 s1 s3 k :
  ur_conflict res = Some conflict ->
  w_vault w !! p = Some (NFile c mt) ->
  t_download net p (Some (currentRevision conflict)) (w_srv w) = (Answer r1, s1) ->
  merge_attempt_fails net p c conflict s1 s3 k ->
  let t := w_clock w + 1 + k in
  let serverContent := default EmptyString (dr_content r1) in
  (w_vault w !! backup_primary iso_stamp p t = None \/
   w_vault w !! backup_fallback iso_stamp p t = None) ->
  exists backupPath,
    (backupPath = backup_primary iso_stamp p t \/
     backupPath = backup_fallback iso_stamp p t) /\
    w_vault w !! backupPath = None /\
    w_vault (snd (handleConflict net iso_stamp onMergeSuccess p res w)) =
      <[p := NFile (conflict_document c serverContent backupPath) t]>
        (<[backupPath := NFile serverContent t]> (w_vault w)) /\
    w_meta (snd (handleConflict net iso_stamp onMergeSuccess p res w)) = w_meta w.
Proof.
  intros Hc Hv Hd1 Hm t sc Hfree.
  unfold handleConflict. rewrite Hc.
  unfold handleManualConflict, merged_content. unfold_engine. simpl.
  rewrite Hd1. simpl.
  destruct Hm as [s Hyp|s1' s2 s3' anc mr Hyp Hd2 Hmr Hmc].
  - apply Z.ltb_ge in Hyp. rewrite Hyp. simpl. rewrite Hv. simpl.
    unfold t in *. replace (w_clock w + 1 + 0) with (w_clock w + 1) in * by lia.
    manual_cases Hv Hfree.
  - apply Z.ltb_lt in Hyp. rewrite Hyp. simpl. rewrite Hd2. simpl.
    rewrite Hv. simpl. rewrite Hmr. simpl.
    destruct (mr_success mr && negb (mr_hasConflict mr)) eqn:Hok.
    + unfold merged_content in Hmc. rewrite Hok in Hmc.
      destruct (mr_mergedContent mr) as [[|a m]|]; simpl;
        [|discriminate|];
      unfold t in *;
      replace (w_clock w + 1 + 2) with (w_clock w + 1 + 1 + 1) in * by lia;
      manual_cases Hv Hfree.
    + simpl. unfold t in *.
      replace (w_clock w + 1 + 2) with (w_clock w + 1 + 1 + 1) in * by lia.
      manual_cases Hv Hfree.
Qed.

Lemma rev_or0_some m : rev_or0 (Some m) = md_revision m.
Proof.
  unfold rev_or0, or0, or_else. simpl.
  destruct (md_revision m =? 0) eqn:Hz; [apply Z.eqb_eq in Hz; auto|auto].
Qed.

Lemma downward_idle (rs : list RemoteFile) d (w : World Srv) :
  Forall (fun r => exists m, w_meta w !! rf_path r = Some m /\
                             or0 (rf_revision r) <= md_revision m) rs ->
  downward net rs d w = (Ok d, w).
Proof.
  induction rs as [|r rs IH]; intros Hall; [reflexivity|].
  inversion Hall as [|? ? [m [Hm Hle]] Hrest]; subst.
  simpl. unfold bind at 1, getMetadata, gets. cbv beta. rewrite Hm.
  assert (Hn : needs_download (Some m) r = false).
  { unfold needs_download. rewrite rev_or0_some. simpl.
    apply Z.ltb_ge. exact Hle. }
  rewrite Hn. apply IH. exact Hrest.
Qed.

Lemma upward_idle fuel (ps : list string) u (w : World Srv) :
  (forall p, p ∈ ps -> exists c mt m,
     w_vault w !! p = Some (NFile c mt) /\ w_meta w !! p = Some m /\
     mt <= md_lastSyncedAt m) ->
  upward net iso_stamp fuel ps u w = (Ok u, w).
Proof.
  induction ps as [|p ps IH]; intros Hall; [reflexivity|].
  destruct (Hall p (list_elem_of_here p ps)) as (c & mt & m & Hv & Hm & Hle).
  simpl. unfold getMetadata, file_stat, getAbstractFileByPath, gets, bind, ret.
  cbv beta. rewrite Hm, Hv. simpl.
  replace (md_lastSyncedAt m <? mt) with false by (symmetry; apply Z.ltb_ge; lia).
  apply IH. intros q Hq. apply Hall. right. exact Hq.
Qed.

Lemma syncable_files_sound (v : gmap string Node) p :
  p ∈ filter (fun p => shouldSyncFile p = true) (vault_files v) ->
  shouldSyncFile p = true /\ exists c mt, v !! p = Some (NFile c mt).
Proof.
  intros H. apply list_elem_of_filter in H as [Hs H].
  unfold vault_files in H. apply list_elem_of_fmap in H as [[q n] [Hq Hin]].
  simpl in Hq. subst q.
  apply list_elem_of_filter in Hin as [Ht Hin].
  apply elem_of_map_to_list in Hin.
  destruct n as [c mt|]; simpl in Ht; [|discriminate].
  split; [exact Hs|]. exists c, mt. exact Hin.
Qed.

(** C1 (as the code does it): a pass downloads nothing and uploads nothing
    (the code keeps no failure count) when, at its start, every descriptor of
    the listing has a record whose revision is at least the descriptor's, and
    every syncable local file has a record whose lastSyncedAt is at least its
    modification time; the pass then leaves the vault and the store as they
    were.  A first pass need not establish this (see the counterexample: a
    file whose modification time lies after the upload is uploaded again). *)
Theorem syncVault_quiescent fuel silent (w : World Srv) lr s' rs :
  s_token (w_settings w) <> EmptyString ->
  w_syncing w = false ->
  t_list net (w_srv w) = (Answer lr, s') ->
  lr_success lr = true ->
  lr_files lr = Some rs ->
  Forall (fun r => exists m, w_meta w !! rf_path r = Some m /\
                             or0 (rf_revision r) <= md_revision m) rs ->
  (forall p c mt, w_vault w !! p = Some (NFile c mt) -> shouldSyncFile p = true ->
     exists m, w_meta w !! p = Some m /\ mt <= md_lastSyncedAt m) ->
  fst (syncVault net iso_stamp fuel silent w) = Ok (Completed 0 0) /\
  w_meta (snd (syncVault net iso_stamp fuel silent w)) = w_meta w /\
  w_vault (snd (syncVault net iso_stamp fuel silent w)) = w_vault w.
Proof.
  intros Htok Hsy Hl Hls Hlf Hrs Hfiles.
  apply String.eqb_neq in Htok.
  assert (Hup : forall w' : World Srv,
    w_meta w' = w_meta w -> w_vault w' = w_vault w ->
    upward net iso_stamp fuel
      (filter (fun p => shouldSyncFile p = true) (vault_files (w_vault w))) 0 w'
    = (Ok 0, w')).
  { intros w' Hm' Hv'. apply upward_idle. intros p Hp.
    apply syncable_files_sound in Hp as [Hs (c & mt & Hv)].
    destruct (Hfiles p c mt Hv Hs) as (m & Hm & Hle).
    exists c, mt, m. rewrite Hm', Hv'. auto. }
  destruct silent; unfold syncVault; unfold_engine; simpl;
    rewrite Htok; simpl; rewrite Hsy; simpl; rewrite Hl; simpl;
    rewrite Hls, Hlf; simpl;
    rewrite downward_idle by (simpl; exact Hrs); simpl;
    rewrite Hup by reflexivity; simpl; auto.

Qed.

End Proofs.

(** * Further properties of the code *)

Section Extras.
Context {Srv : Type} (net : Transport Srv) (iso_stamp : Z -> string).

Ltac unfold_io :=
  unfold deleteMetadata, saveMetadata, save, getMetadata, file_stat,
    vault_createFolder, vault_create, vault_modify, vault_read,
    getAbstractFileByPath, net_call, date_now, getSettings, gets, set_syncing,
    notice, upd_meta, upd_vault, try_catch, throw, bind, ret in *.

Ltac case_matches :=
  repeat (match goal with
          | |- context [match ?x with _ => _ end] =>
              lazymatch x with
              | context [match _ with _ => _ end] => fail
              | _ => destruct x eqn:?
              end
          end; simpl in * ).

Lemma merge_meta_twice cur a b p :
  merge_meta (merge_meta cur a p) b p = merge_meta cur (patch_over b a) p.
Proof.
  destruct cur, a as [h1 s1 r1 pr1 l1 d1], b as [h2 s2 r2 pr2 l2 d2].
  unfold merge_meta, patch_over; simpl.
  destruct h2, s2, r2, pr2, l2, d2; reflexivity.
Qed.

(** X1: on a writable disk, saving a patch and then a second one for the same
    path is one save of the second patch laid over the first. *)
Theorem saveMetadata_compose p a b (w : World Srv) :
  w_disk_ok w = true ->
  bind (saveMetadata p a) (fun _ => saveMetadata p b) w =
    saveMetadata p (patch_over b a) w.
Proof.
  intros Hd. unfold saveMetadata, save, getMetadata, upd_meta, gets, bind, ret, throw.
  cbn -[insert lookup merge_meta]. rewrite Hd. cbn -[insert lookup merge_meta].
  rewrite lookup_insert_eq. cbn -[insert lookup merge_meta].
  rewrite merge_meta_twice, insert_insert_eq. reflexivity.
Qed.

(** X2: when the write of metadata.json fails, saveMetadata rejects with
    the adapter's own error, yet the in-memory record of the path is already
    updated; the records of other paths are untouched. *)
Theorem saveMetadata_write_failure p patch (w : World Srv) :
  w_disk_ok w = false ->
  fst (saveMetadata p patch w) = Exc (w_write_error w) /\
  w_meta (snd (saveMetadata p patch w)) !! p =
    Some (merge_meta (default (default_meta p) (w_meta w !! p)) patch p) /\
  (forall q, q <> p -> w_meta (snd (saveMetadata p patch w)) !! q = w_meta w !! q).
Proof.
  intros Hd. unfold saveMetadata, save, getMetadata, upd_meta, gets, bind, ret, throw.
  simpl. rewrite Hd. simpl. split; [reflexivity|]. split.
  - apply lookup_insert_eq.
  - intros q Hq. apply lookup_insert_ne. congruence.
Qed.

(** X3: deleteMetadata of a path without a record changes nothing and writes
    nothing; with a record it removes it from memory, then writes, and
    rejects if the write fails. *)
Theorem deleteMetadata_missing_or_present p (w : World Srv) :
  (w_meta w !! p = None -> deleteMetadata p w = (Ok tt, w)) /\
  (forall m, w_meta w !! p = Some m ->
     w_meta (snd (deleteMetadata p w)) = delete p (w_meta w) /\
     fst (deleteMetadata p w) =
       if w_disk_ok w then Ok tt else Exc (w_write_error w)).
Proof.
  unfold deleteMetadata, save, getMetadata, upd_meta, gets, bind, ret, throw.
  split.
  - intros Hm. simpl. rewrite Hm. reflexivity.
  - intros m Hm. simpl. rewrite Hm. simpl.
    destruct (w_disk_ok w); simpl; auto.
Qed.

Lemma renameMetadata_old_gone oldp newp (w : World Srv) :
  w_meta (snd (renameMetadata oldp newp w)) !! oldp = None.
Proof.
  unfold renameMetadata, save, getMetadata, upd_meta, gets, bind, ret, throw.
  simpl. destruct (w_meta w !! oldp) eqn:Hm; simpl.
  - destruct (w_disk_ok w); simpl; apply lookup_delete_eq.
  - exact Hm.
Qed.

Lemma renameMetadata_moves oldp newp (w : World Srv) m :
  oldp <> newp -> w_meta w !! oldp = Some m ->
  w_meta (snd (renameMetadata oldp newp w)) !! newp =
    Some {| md_path := newp; md_hash := md_hash m; md_size := md_size m;
            md_revision := md_revision m;
            md_parentRevision := md_parentRevision m;
            md_lastSyncedAt := md_lastSyncedAt m;
            md_deviceId := md_deviceId m |} /\
  (forall q, q <> oldp -> q <> newp ->
     w_meta (snd (renameMetadata oldp newp w)) !! q = w_meta w !! q).
Proof.
  unfold renameMetadata, save, getMetadata, upd_meta, gets, bind, ret, throw.
  intros Hne Hm. simpl. rewrite Hm. simpl.
  destruct (w_disk_ok w); simpl; split;
    [rewrite lookup_delete_ne by congruence; apply lookup_insert_eq
    | intros q Hq1 Hq2; rewrite lookup_delete_ne by congruence;
      apply lookup_insert_ne; congruence
    | rewrite lookup_delete_ne by congruence; apply lookup_insert_eq
    | intros q Hq1 Hq2; rewrite lookup_delete_ne by congruence;
      apply lookup_insert_ne; congruence].
Qed.

(** X4: after renameMetadata the old path has no record; without a record at
    the old path nothing happens; otherwise the new path gets the old record
    with its path field replaced, and every other path keeps its record. *)
Theorem renameMetadata_effect oldp newp (w : World Srv) :
  w_meta (snd (renameMetadata oldp newp w)) !! oldp = None /\
  (w_meta w !! oldp = None -> renameMetadata oldp newp w = (Ok tt, w)) /\
  (forall m, oldp <> newp -> w_meta w !! oldp = Some m ->
     w_meta (snd (renameMetadata oldp newp w)) !! newp =
       Some {| md_path := newp; md_hash := md_hash m; md_size := md_size m;
               md_revision := md_revision m;
               md_parentRevision := md_parentRevision m;
               md_lastSyncedAt := md_lastSyncedAt m;
               md_deviceId := md_deviceId m |} /\
     (forall q, q <> oldp -> q <> newp ->
        w_meta (snd (renameMetadata oldp newp w)) !! q = w_meta w !! q)).
Proof.
  split; [apply renameMetadata_old_gone|split].
  - intros Hm. unfold renameMetadata, getMetadata, gets, bind, ret.
    simpl. rewrite Hm. reflexivity.
  - intros m. apply renameMetadata_moves.
Qed.


Lemma last_index_of_from_app c s1 s2 i acc :
  last_index_of_from c (s1 ++ s2) i acc =
  last_index_of_from c s2 (i + Z.of_nat (String.length s1))
    (last_index_of_from c s1 i acc).
Proof.
  revert i acc; induction s1 as [|a s1 IH]; intros i acc; simpl.
  - rewrite Z.add_0_r. reflexivity.
  - rewrite IH. f_equal. lia.
Qed.

Lemma last_index_of_from_absent c s i acc :
  ~ In c (list_ascii_of_string s) -> last_index_of_from c s i acc = acc.
Proof.
  revert i acc; induction s as [|a s IH]; intros i acc H; simpl in *;
    [reflexivity|].
  rewrite IH by (intros Hin; apply H; right; exact Hin).
  destruct (Ascii.eqb c a) eqn:E; [|reflexivity].
  apply Ascii.eqb_eq in E. subst. exfalso. apply H. left. reflexivity.
Qed.

Lemma substring_app_l d s k m :
  String.substring (String.length d + k) m (d ++ s) = String.substring k m s.
Proof. induction d as [|a d IH]; simpl; auto. Qed.

Lemma substring_whole s : String.substring 0 (String.length s) s = s.
Proof. induction s as [|a s IH]; simpl; [reflexivity|]. rewrite IH. reflexivity. Qed.

Lemma length_app_str s1 s2 :
  String.length (s1 ++ s2) = (String.length s1 + String.length s2)%nat.
Proof. induction s1 as [|a s1 IH]; simpl; auto. Qed.

Lemma basename_no_slash n :
  ~ In "/"%char (list_ascii_of_string n) -> basename n = n.
Proof.
  intros H. unfold basename, last_index_of, js_suffix.
  rewrite last_index_of_from_absent by exact H. simpl.
  rewrite Nat.sub_0_r. apply substring_whole.
Qed.

Lemma basename_in_folder d n :
  ~ In "/"%char (list_ascii_of_string n) ->
  basename (d ++ String "/" n) = n.
Proof.
  intros H. unfold basename, last_index_of, js_suffix.
  rewrite last_index_of_from_app. simpl.
  rewrite last_index_of_from_absent by exact H.
  replace (Z.to_nat (0 + Z.of_nat (String.length d) + 1))
    with (String.length d + 1)%nat by lia.
  rewrite substring_app_l, length_app_str. simpl.
  replace (String.length d + S (String.length n) - (String.length d + 1))%nat
    with (String.length n) by lia.
  apply substring_whole.
Qed.

(** X5: the folders of a path do not matter to shouldSyncFile: only the
    extension of the base name counts. *)
Theorem shouldSyncFile_ignores_folders d n :
  ~ In "/"%char (list_ascii_of_string n) ->
  shouldSyncFile (d ++ String "/" n) = shouldSyncFile n.
Proof.
  intros H. unfold shouldSyncFile, extension_of.
  rewrite basename_in_folder, basename_no_slash by exact H. reflexivity.
Qed.

Lemma lower_ascii_slash a :
  Ascii.eqb "/"%char (lower_ascii a) = Ascii.eqb "/"%char a.
Proof. destruct a as [[] [] [] [] [] [] [] []]; reflexivity. Qed.

Lemma lower_ascii_dot a :
  Ascii.eqb "."%char (lower_ascii a) = Ascii.eqb "."%char a.
Proof. destruct a as [[] [] [] [] [] [] [] []]; reflexivity. Qed.

Lemma lower_ascii_idem a : lower_ascii (lower_ascii a) = lower_ascii a.
Proof. destruct a as [[] [] [] [] [] [] [] []]; reflexivity. Qed.

Lemma last_index_of_from_lower c s i acc :
  (forall a, Ascii.eqb c (lower_ascii a) = Ascii.eqb c a) ->
  last_index_of_from c (to_lower s) i acc = last_index_of_from c s i acc.
Proof.
  intros Hc. revert i acc; induction s as [|a s IH]; intros i acc; simpl;
    [reflexivity|].
  rewrite Hc. apply IH.
Qed.

Lemma length_to_lower s : String.length (to_lower s) = String.length s.
Proof. induction s; simpl; auto. Qed.

Lemma substring_to_lower k m s :
  String.substring k m (to_lower s) = to_lower (String.substring k m s).
Proof.
  revert k m; induction s as [|a s IH]; intros [|k] [|m]; simpl; auto.
  rewrite IH. reflexivity.
Qed.

Lemma to_lower_idem s : to_lower (to_lower s) = to_lower s.
Proof. induction s; simpl; [reflexivity|]. rewrite lower_ascii_idem, IHs. reflexivity. Qed.

Lemma extension_of_lower p : extension_of (to_lower p) = to_lower (extension_of p).
Proof.
  unfold extension_of, basename, last_index_of, js_suffix.
  rewrite last_index_of_from_lower by apply lower_ascii_slash.
  rewrite length_to_lower, substring_to_lower.
  rewrite last_index_of_from_lower by apply lower_ascii_dot.
  destruct (_ <? 0); [reflexivity|].
  rewrite length_to_lower, substring_to_lower. reflexivity.
Qed.

(** X6: shouldSyncFile ignores the case of the path. *)
Theorem shouldSyncFile_case_insensitive p :
  shouldSyncFile (to_lower p) = shouldSyncFile p.
Proof.
  unfold shouldSyncFile. rewrite extension_of_lower, to_lower_idem. reflexivity.
Qed.


Lemma str_app_cons a s1 s2 : (String a s1 ++ s2)%string = String a (s1 ++ s2).
Proof. reflexivity. Qed.

Lemma str_app_assoc s1 s2 s3 : ((s1 ++ s2) ++ s3)%string = (s1 ++ (s2 ++ s3))%string.
Proof.
  induction s1 as [|a s1 IH]; [reflexivity|].
  rewrite !str_app_cons, IH. reflexivity.
Qed.

Lemma list_ascii_of_string_app s1 s2 :
  list_ascii_of_string (s1 ++ s2) = list_ascii_of_string s1 ++ list_ascii_of_string s2.
Proof.
  induction s1 as [|a s1 IH]; [reflexivity|].
  rewrite str_app_cons. simpl. rewrite IH. reflexivity.
Qed.

Lemma trim_template_frame t :
  rev (drop_ws (rev (drop_ws
    ("010"%char :: ((("<"%char :: t) ++ [">"%char]) ++ ["010"%char]))))) =
  ("<"%char :: t) ++ [">"%char].
Proof.
  cbn [drop_ws is_ws]. simpl. rewrite !List.rev_app_distr. simpl.
  rewrite List.rev_app_distr, List.rev_involutive. reflexivity.
Qed.

(** X7: the conflict document keeps the local and server contents verbatim:
    the trim only removes the newlines framing the template. *)
Theorem conflict_document_verbatim l s b :
  conflict_document l s b =
    ("<<<<<<< LOCAL (Your Version)" ++ nl ++ l ++ nl ++ "=======" ++ nl
     ++ s ++ nl ++ ">>>>>>> SERVER (Remote Version)" ++ nl ++ nl
     ++ "<!-- Conflict detected. Please resolve manually and re-sync. -->" ++ nl
     ++ "<!-- A backup of the server version has been saved to: "
     ++ b ++ " -->")%string.
Proof.
  set (Y := ("<<<<<<< LOCAL (Your Version)" ++ nl ++ l ++ nl ++ "=======" ++ nl
     ++ s ++ nl ++ ">>>>>>> SERVER (Remote Version)" ++ nl ++ nl
     ++ "<!-- Conflict detected. Please resolve manually and re-sync. -->" ++ nl
     ++ "<!-- A backup of the server version has been saved to: "
     ++ b ++ " --")%string).
  assert (HX : ("<<<<<<< LOCAL (Your Version)" ++ nl ++ l ++ nl ++ "=======" ++ nl
     ++ s ++ nl ++ ">>>>>>> SERVER (Remote Version)" ++ nl ++ nl
     ++ "<!-- Conflict detected. Please resolve manually and re-sync. -->" ++ nl
     ++ "<!-- A backup of the server version has been saved to: "
     ++ b ++ " -->")%string = (Y ++ ">")%string).
  { unfold Y. rewrite !str_app_assoc. reflexivity. }
  assert (Hdoc : conflict_document l s b = js_trim (nl ++ (Y ++ ">") ++ nl)%string).
  { unfold conflict_document. rewrite <- HX. rewrite !str_app_assoc. reflexivity. }
  rewrite HX, Hdoc. unfold js_trim.
  assert (HY : exists t, list_ascii_of_string Y = "<"%char :: t)
    by (eexists; reflexivity).
  destruct HY as [t Ht].
  assert (Hl : list_ascii_of_string (nl ++ (Y ++ ">") ++ nl)%string =
               "010"%char :: ((("<"%char :: t) ++ [">"%char]) ++ ["010"%char])).
  { rewrite !list_ascii_of_string_app, Ht. reflexivity. }
  rewrite Hl, trim_template_frame, <- Ht.
  change [">"%char] with (list_ascii_of_string ">").
  rewrite <- list_ascii_of_string_app, string_of_list_ascii_of_string.
  reflexivity.
Qed.


(** X8: uploading a path that is not a file answers false and changes
    nothing: no request, no notice, no metadata. *)
Theorem uploadFile_not_a_file fuel p (w : World Srv) :
  is_tfile (w_vault w !! p) = false ->
  uploadFile net iso_stamp (S fuel) p w = (Ok false, w).
Proof.
  intros Hf. simpl. unfold_io. simpl.
  destruct (w_vault w !! p) as [[c mt|]|]; simpl in *; congruence.
Qed.

(** X9: a download that is rejected, unsuccessful, or lacks the file or the
    content answers false and leaves the vault and the metadata unchanged. *)
Theorem downloadFile_unusable_answer p rev (w : World Srv) :
  match fst (t_download net p rev (w_srv w)) with
  | Answer r => dr_success r = false \/ dr_file r = None \/ dr_content r = None
  | Rejected _ => True
  end ->
  fst (downloadFile net p rev w) = Ok false /\
  w_vault (snd (downloadFile net p rev w)) = w_vault w /\
  w_meta (snd (downloadFile net p rev w)) = w_meta w.
Proof.
  intros H. unfold downloadFile. unfold_io. simpl.
  destruct (t_download net p rev (w_srv w)) as [[r|e] s']; simpl in *;
    [|auto].
  destruct r as [[] [rf|] [c|] isc]; simpl in *;
    destruct H as [H|[H|H]]; try discriminate; auto.
Qed.

(** X10: a successful download onto a path holding a folder answers true but
    writes nothing: the folder stays and no metadata is stored. *)
Theorem downloadFile_onto_folder p rev (w : World Srv) rf content isc s' :
  t_download net p rev (w_srv w) =
    (Answer {| dr_success := true; dr_file := Some rf;
               dr_content := Some content; dr_isConflict := isc |}, s') ->
  w_vault w !! p = Some NFolder ->
  fst (downloadFile net p rev w) = Ok true /\
  w_meta (snd (downloadFile net p rev w)) = w_meta w /\
  w_vault (snd (downloadFile net p rev w)) !! p = Some NFolder.
Proof.
  intros Hd Hp. unfold downloadFile. unfold_io. simpl. rewrite Hd. simpl.
  destruct isc; simpl; rewrite Hp; simpl;
    destruct (String.eqb (folder_of p) EmptyString) eqn:He; simpl;
    destruct (w_vault w !! folder_of p) eqn:Hf; simpl;
    repeat progress (simpl; rewrite ?Hp, ?Hf); auto;
    (split; [reflexivity|split; [reflexivity|]]);
    rewrite lookup_insert_ne; auto; intros Heq;
    rewrite Heq, Hp in Hf; discriminate.
Qed.



(** X12: deleteFile never touches the vault, sends exactly one delete request
    carrying the stored revision, and when answered reports the server's
    success unless the metadata write failed. *)
Theorem deleteFile_local_effects p (w : World Srv) :
  w_vault (snd (deleteFile net p w)) = w_vault w /\
  w_netlog (snd (deleteFile net p w)) =
    w_netlog w ++ [ReqDelete p (rev_or0 (w_meta w !! p))] /\
  (forall res s',
     t_delete net p (rev_or0 (w_meta w !! p)) (s_deviceId (w_settings w))
       (w_srv w) = (Answer res, s') ->
     fst (deleteFile net p w) =
       Ok (if w_disk_ok w || is_none (w_meta w !! p) then del_success res
           else false)).
Proof.
  unfold deleteFile. unfold_io. simpl.
  destruct (t_delete net p (rev_or0 (w_meta w !! p)) (s_deviceId (w_settings w))
              (w_srv w)) as [[res|e] s'] eqn:Hd; simpl.
  - destruct (del_conflict res); simpl;
      destruct (w_meta w !! p) eqn:Hm; simpl; rewrite ?Hm; simpl;
      destruct (w_disk_ok w); simpl;
      (split; [reflexivity|split; [reflexivity|]]);
      intros res' s'' Hd'; inversion Hd'; subst; reflexivity.
  - split; [reflexivity|split; [reflexivity|]].
    intros res' s'' Hd'. discriminate.
Qed.


(** X13: when the listing fails, a sync reports the failure in a notice,
    downloads and uploads nothing, and releases the in-progress flag.  The
    message is the server's error text, or the default text when the server
    gives none or an empty one, or the transport's own rejection. *)
Theorem syncVault_list_failure fuel silent (w : World Srv) msg :
  s_token (w_settings w) <> EmptyString ->
  w_syncing w = false ->
  match fst (t_list net (w_srv w)) with
  | Answer lr => (lr_success lr = false \/ lr_files lr = None) /\
                 msg = str_or (lr_error lr) "Failed to list remote files"
  | Rejected e => msg = e
  end ->
  fst (syncVault net iso_stamp fuel silent w) = Ok (SyncFailed msg) /\
  w_syncing (snd (syncVault net iso_stamp fuel silent w)) = false /\
  w_vault (snd (syncVault net iso_stamp fuel silent w)) = w_vault w /\
  w_meta (snd (syncVault net iso_stamp fuel silent w)) = w_meta w /\
  w_notices (snd (syncVault net iso_stamp fuel silent w)) =
    w_notices w ++ (if silent then [] else ["🔄 Starting sync..."%string])
      ++ [("❌ Sync failed: " ++ msg)%string].
Proof.
  intros Htok Hsy Hl. apply String.eqb_neq in Htok.
  unfold syncVault. unfold_io. simpl. rewrite Htok. simpl. rewrite Hsy. simpl.
  destruct (t_list net (w_srv w)) as [[lr|e] s'] eqn:Hlist; simpl in Hl;
    destruct silent; simpl; rewrite Hlist; simpl.
  - destruct Hl as [Hf ->].
      destruct (lr_success lr), (lr_files lr); simpl;
      try (destruct Hf; discriminate);
      repeat split; rewrite <- ?app_assoc; reflexivity.
  - destruct Hl as [Hf ->].
      destruct (lr_success lr), (lr_files lr); simpl;
      try (destruct Hf; discriminate);
      repeat split; rewrite <- ?app_assoc; reflexivity.
  - subst msg. repeat split; rewrite <- ?app_assoc; reflexivity.
  - subst msg. repeat split; rewrite <- ?app_assoc; reflexivity.
Qed.

(** X14: syncVault never rejects, and whenever it ends it leaves the
    in-progress flag as it found it. *)
Theorem syncVault_never_rejects fuel silent (w : World Srv) :
  (forall e, fst (syncVault net iso_stamp fuel silent w) <> Exc e) /\
  (fst (syncVault net iso_stamp fuel silent w) <> OutOfFuel ->
   w_syncing (snd (syncVault net iso_stamp fuel silent w)) = w_syncing w).
Proof.
  unfold syncVault.
  set (TC := try_catch _ _).
  assert (HTC : forall w' e, fst (TC w') <> Exc e).
  { intros w' e. unfold TC. apply (try_catch_notice_never_exc _ EmptyString).
    intros e' w''. unfold bind, notice, ret. simpl. congruence. }
  clearbody TC.
  unfold bind, getSettings, gets, set_syncing, notice, ret. cbv beta.
  destruct (String.eqb (s_token (w_settings w)) EmptyString).
  { simpl. split; [intros e; congruence|intros _; reflexivity]. }
  destruct (w_syncing w) eqn:Hs.
  { simpl. split; [intros e; congruence|intros _; congruence]. }
  destruct silent; cbv beta;
  match goal with |- context [TC ?w1] =>
    specialize (HTC w1); destruct (TC w1) as [[o|e|] w2]; simpl in HTC end;
  simpl; try (split; [intros e'; congruence|intros _; reflexivity]);
  try (exfalso; eapply HTC; reflexivity);
  try split;
  try (intros e'; congruence); try (intros H; exfalso; apply H; reflexivity).
Qed.

Lemma bind_R_at R (R_refl : forall w : World Srv, R w w)
    (R_trans : forall w1 w2 w3, R w1 w2 -> R w2 w3 -> R w1 w3)
    {A B} (m : M A) (k : A -> M B) w :
  R w (snd (m w)) -> (forall a w', R w' (snd (k a w'))) ->
  R w (snd (bind m k w)).
Proof.
  intros Hm Hk. unfold bind. destruct (m w) as [[a|e|] w'] eqn:E; simpl in *;
    [eapply R_trans; [exact Hm|apply Hk] | exact Hm | exact Hm].
Qed.

Lemma bind_R R (R_refl : forall w : World Srv, R w w)
    (R_trans : forall w1 w2 w3, R w1 w2 -> R w2 w3 -> R w1 w3)
    {A B} (m : M A) (k : A -> M B) :
  (forall w, R w (snd (m w))) -> (forall a w, R w (snd (k a w))) ->
  forall w, R w (snd (bind m k w)).
Proof. intros Hm Hk w. apply bind_R_at; auto. Qed.

Lemma try_catch_R R (R_refl : forall w : World Srv, R w w)
    (R_trans : forall w1 w2 w3, R w1 w2 -> R w2 w3 -> R w1 w3)
    {A} (m : M A) h :
  (forall w, R w (snd (m w))) -> (forall e w, R w (snd (h e w))) ->
  forall w, R w (snd (try_catch m h w)).
Proof.
  intros Hm Hh w. unfold try_catch. specialize (Hm w).
  destruct (m w) as [[a|e|] w'] eqn:E; simpl in *; auto.
  eapply R_trans; [exact Hm|apply Hh].
Qed.

Lemma ret_R R (R_refl : forall w : World Srv, R w w) {A} (a : A) :
  forall w, R w (snd (ret a w)).
Proof. intros w. apply R_refl. Qed.

Lemma throw_R R (R_refl : forall w : World Srv, R w w) {A} msg :
  forall w, R w (snd (@throw Srv A msg w)).
Proof. intros w. apply R_refl. Qed.

Lemma gets_R R (R_refl : forall w : World Srv, R w w) {A} (f : World Srv -> A) :
  forall w, R w (snd (gets f w)).
Proof. intros w. apply R_refl. Qed.

Lemma stuck_R R (R_refl : forall w : World Srv, R w w) {A} :
  forall w, R w (snd ((fun w => (@OutOfFuel A, w)) w)).
Proof. intros w. apply R_refl. Qed.

Lemma bind_gets_R R (R_refl : forall w : World Srv, R w w) {A B} (Q : A -> Prop)
    (f : World Srv -> A) (k : A -> M B) :
  (forall w, Q (f w)) -> (forall a, Q a -> forall w, R w (snd (k a w))) ->
  forall w, R w (snd (bind (gets f) k w)).
Proof. intros Hf Hk w. unfold bind, gets. apply Hk, Hf. Qed.

Ltac no_extra := fail.

Ltac steps R Hr Ht tac :=
  unfold handleManualConflict, saveMetadata, deleteMetadata, renameMetadata,
    save, vault_read, vault_modify, vault_create, vault_createFolder, file_stat,
    getSettings, getMetadata, date_now, getAbstractFileByPath;
  repeat (cbv beta zeta; first
    [ tac
    | apply (bind_R R Hr Ht); [|intros ?]
    | apply (try_catch_R R Hr Ht); [|intros ?]
    | apply (ret_R R Hr)
    | apply (throw_R R Hr)
    | apply (gets_R R Hr)
    | apply (stuck_R R Hr)
    | match goal with
      | |- forall w, _ (snd ((match ?x with _ => _ end) w)) => destruct x
      end ]).

Lemma log_extends_refl P (w : World Srv) : log_extends P w w.
Proof. exists []. rewrite app_nil_r. auto. Qed.

Lemma log_extends_trans P (w1 w2 w3 : World Srv) :
  log_extends P w1 w2 -> log_extends P w2 w3 -> log_extends P w1 w3.
Proof.
  intros [l1 [H1 F1]] [l2 [H2 F2]]. exists (l1 ++ l2).
  rewrite H2, H1, app_assoc. split; [reflexivity|]. apply Forall_app. auto.
Qed.

Ltac log_leaf :=
  intros ?w; unfold log_extends, net_call, notice, upd_vault, upd_meta, set_syncing;
  simpl;
  try (match goal with |- context [let (_, _) := ?x in _] => destruct x end);
  simpl;
  first
    [ exists []; rewrite app_nil_r; split; [reflexivity|constructor]
    | eexists; split; [reflexivity|]; repeat constructor; auto ].

Lemma uploadFile_log (P : NetReq -> Prop) p :
  (forall r, P (ReqUpload p r)) -> (forall r, P (ReqDownload p r)) ->
  (forall a b, P (ReqMerge p a b)) ->
  forall fuel w, log_extends P w (snd (uploadFile net iso_stamp fuel p w)).
Proof.
  intros HU HD HM fuel. induction fuel as [|fuel IH].
  { intros w. apply log_extends_refl. }
  cbn [uploadFile]. unfold handleConflict.
  steps (@log_extends Srv P) (log_extends_refl P) (log_extends_trans P) no_extra.
  all: try exact IH.
  all: log_leaf.
Qed.

Lemma downloadFile_log (P : NetReq -> Prop) p rev :
  P (ReqDownload p rev) ->
  forall w, log_extends P w (snd (downloadFile net p rev w)).
Proof.
  intros HD. unfold downloadFile.
  steps (@log_extends Srv P) (log_extends_refl P) (log_extends_trans P) no_extra.
  all: log_leaf.
Qed.

Lemma downward_log (P : NetReq -> Prop) :
  (forall p r, P (ReqDownload p r)) ->
  forall rs d w, log_extends P w (snd (downward net rs d w)).
Proof.
  intros HD rs. induction rs as [|r rs IH]; intros d.
  { intros w. apply log_extends_refl. }
  cbn [downward].
  steps (@log_extends Srv P) (log_extends_refl P) (log_extends_trans P) no_extra.
  all: first [apply IH | log_leaf].
Qed.

Lemma upward_log (P : NetReq -> Prop) fuel :
  (forall p r, shouldSyncFile p = true -> P (ReqUpload p r)) ->
  (forall p r, P (ReqDownload p r)) -> (forall p a b, P (ReqMerge p a b)) ->
  forall ps u w, Forall (fun p => shouldSyncFile p = true) ps ->
  log_extends P w (snd (upward net iso_stamp fuel ps u w)).
Proof.
  intros HU HD HM ps. induction ps as [|q ps IH]; intros u w Hps.
  { apply log_extends_refl. }
  inversion Hps as [|? ? Hq Hrest]; subst. clear Hps. revert w.
  cbn [upward].
  steps (@log_extends Srv P) (log_extends_refl P) (log_extends_trans P) no_extra.
  all: first [intros w; apply IH; exact Hrest | apply uploadFile_log; auto].
Qed.

Ltac filter_syncable :=
  apply (bind_gets_R _ (log_extends_refl _)
           (Forall (fun p => shouldSyncFile p = true)));
  [ intros ?w; apply Forall_forall; intros ?p ?Hp;
    apply syncable_files_sound in Hp; tauto
  | intros ? ?Hl ].

(** X15: a sync pass never sends a delete request, and uploads only paths
    that shouldSyncFile accepts. *)
Theorem syncVault_requests fuel silent (w : World Srv) :
  exists l,
    w_netlog (snd (syncVault net iso_stamp fuel silent w)) = w_netlog w ++ l /\
    Forall (fun r => match r with
                     | ReqDelete _ _ => False
                     | ReqUpload q _ => shouldSyncFile q = true
                     | _ => True
                     end) l.
Proof.
  set (P := fun r => match r with
                     | ReqDelete _ _ => False
                     | ReqUpload q _ => shouldSyncFile q = true
                     | _ => True
                     end).
  change (log_extends P w (snd (syncVault net iso_stamp fuel silent w))).
  revert w. unfold syncVault.
  steps (@log_extends Srv P) (log_extends_refl P) (log_extends_trans P) filter_syncable.
  all: try (apply downward_log; intros; exact I).
  all: try log_leaf.
  intros w. apply upward_log.
  - intros; unfold P; simpl; assumption.
  - intros; exact I.
  - intros; exact I.
  - assumption.
Qed.

Lemma bind_gets_eq {A B} (f : World Srv -> A) (k : A -> @M Srv B) w :
  bind (gets f) k w = k (f w) w.
Proof. reflexivity. Qed.

Lemma bind_ok_eq {A B} (m : @M Srv A) (k : A -> M B) w a w' :
  m w = (Ok a, w') -> bind m k w = k a w'.
Proof. intros H. unfold bind. rewrite H. reflexivity. Qed.

(** X16: the downward phase always completes, and its count grows by at most
    the number of listed remote files. *)
Theorem downward_count rs : forall d (w : World Srv),
  exists d', fst (downward net rs d w) = Ok d' /\
    d <= d' <= d + Z.of_nat (length rs).
Proof.
  induction rs as [|r rs IH]; intros d w.
  { exists d. simpl. split; [reflexivity|lia]. }
  cbn [downward]. unfold getMetadata. rewrite bind_gets_eq.
  destruct (needs_download (w_meta w !! rf_path r) r).
  - destruct (downloadFile_answers net (rf_path r) (Some (or0 (rf_revision r))) w)
      as [b Hb].
    destruct (downloadFile net (rf_path r) (Some (or0 (rf_revision r))) w)
      as [res w1] eqn:E.
    simpl in Hb. subst res. rewrite (bind_ok_eq _ _ _ _ _ E).
    destruct (IH (if b then d + 1 else d) w1) as [d' [H1 H2]].
    exists d'. split; [exact H1|]. cbn [length]. destruct b; lia.
  - destruct (IH d w) as [d' [H1 H2]].
    exists d'. split; [exact H1|]. cbn [length]. lia.
Qed.

(** X17: when both versions download and the merge service merges, the
    merged text replaces the local file, the re-upload runs on that state,
    and no backup or conflict document is written. *)
Theorem handleConflict_auto_merge (onM : string -> @M Srv bool) p res conflict
    (w : World Srv) c mt sr s1 ar s2 mr s3 mc b w'' :
  ur_conflict res = Some conflict ->
  0 < yourParentRevision conflict ->
  w_vault w !! p = Some (NFile c mt) ->
  t_download net p (Some (currentRevision conflict)) (w_srv w) = (Answer sr, s1) ->
  t_download net p (Some (yourParentRevision conflict)) s1 = (Answer ar, s2) ->
  t_merge net p c (yourParentRevision conflict) (currentRevision conflict) s2
    = (Answer mr, s3) ->
  merged_content mr = Some mc ->
  onM p {| w_vault := <[p := NFile mc (w_clock w + 3)]> (w_vault w);
           w_meta := w_meta w; w_disk_ok := w_disk_ok w; w_write_error := w_write_error w;
           w_clock := w_clock w + 3; w_srv := s3;
           w_netlog := w_netlog w ++
             [ReqDownload p (Some (currentRevision conflict));
              ReqDownload p (Some (yourParentRevision conflict));
              ReqMerge p (yourParentRevision conflict) (currentRevision conflict)];
           w_notices := w_notices w ++
             [("⚠️ Conflict detected in " ++ quoted p ++ ". Attempting auto-merge...")%string;
              ("✅ Auto-merged " ++ quoted p)%string];
           w_syncing := w_syncing w; w_settings := w_settings w |}
    = (Ok b, w'') ->
  handleConflict net iso_stamp onM p res w = (Ok tt, w'').
Proof.
  intros Hc Hpos Hv Hd1 Hd2 Hmr Hmc HonM.
  apply Z.ltb_lt in Hpos.
  unfold handleConflict. rewrite Hc.
  unfold vault_read, vault_modify, getAbstractFileByPath, date_now, gets,
    net_call, notice, upd_vault, try_catch, bind, ret.
  simpl. rewrite Hd1. simpl. rewrite Hpos. simpl. rewrite Hd2. simpl.
  rewrite Hv. simpl. rewrite Hmr. simpl. rewrite Hmc. simpl. rewrite Hv. simpl.
  replace (w_clock w + 1 + 1 + 1) with (w_clock w + 3) by lia.
  rewrite <- !app_assoc. simpl.
  rewrite HonM. reflexivity.
Qed.

Lemma meta_kept_refl q (w : World Srv) : meta_kept q w w.
Proof. reflexivity. Qed.

Lemma meta_kept_trans q (w1 w2 w3 : World Srv) :
  meta_kept q w1 w2 -> meta_kept q w2 w3 -> meta_kept q w1 w3.
Proof. unfold meta_kept. congruence. Qed.

Ltac meta_leaf :=
  intros ?w; unfold meta_kept, net_call, notice, upd_vault, upd_meta, set_syncing;
  simpl;
  try (match goal with |- context [let (_, _) := ?x in _] => destruct x end);
  simpl;
  first [ reflexivity | apply lookup_insert_ne; congruence ].

Lemma uploadFile_meta_frame p q : q <> p ->
  forall fuel w, meta_kept q w (snd (uploadFile net iso_stamp fuel p w)).
Proof.
  intros Hq fuel. induction fuel as [|fuel IH].
  { intros w. apply meta_kept_refl. }
  cbn [uploadFile]. unfold handleConflict.
  steps (@meta_kept Srv q) (meta_kept_refl q) (meta_kept_trans q) no_extra.
  all: try exact IH.
  all: meta_leaf.
Qed.

Lemma deleteFile_answered_clears p (w : World Srv) res s' :
  t_delete net p (rev_or0 (w_meta w !! p)) (s_deviceId (w_settings w)) (w_srv w)
    = (Answer res, s') ->
  w_meta (snd (deleteFile net p w)) !! p = None.
Proof.
  intros Hd. unfold deleteFile. unfold_io. simpl. rewrite Hd. simpl.
  destruct (del_conflict res), (w_meta w !! p) eqn:Hm, (w_disk_ok w);
    simpl; rewrite ?Hm; simpl; rewrite ?lookup_delete_eq; auto.
Qed.

Lemma deleteFile_rejected_keeps p (w : World Srv) e s' :
  t_delete net p (rev_or0 (w_meta w !! p)) (s_deviceId (w_settings w)) (w_srv w)
    = (Rejected e, s') ->
  fst (deleteFile net p w) = Ok false /\
  w_meta (snd (deleteFile net p w)) = w_meta w /\
  w_vault (snd (deleteFile net p w)) = w_vault w.
Proof.
  intros Hd. unfold deleteFile. unfold_io. simpl. rewrite Hd. simpl. auto.
Qed.

(** X19: after the rename handler runs for a file, the old path has no
    metadata record. *)
Theorem onRename_old_record_gone fuel newPath oldPath (w : World Srv) :
  s_token (w_settings w) <> EmptyString ->
  is_tfile (w_vault w !! newPath) = true ->
  fst (onRename net iso_stamp fuel newPath oldPath w) <> OutOfFuel ->
  w_meta (snd (onRename net iso_stamp fuel newPath oldPath w)) !! oldPath = None.
Proof.
  intros Ht Hf Hnf. apply String.eqb_neq in Ht.
  unfold onRename, getSettings, getAbstractFileByPath in *.
  rewrite !bind_gets_eq in *. rewrite Ht, Hf in *. simpl in *.
  destruct (deleteFile_answers net oldPath w) as [b1 Hb1].
  destruct (deleteFile net oldPath w) as [r1 w1] eqn:E1. simpl in Hb1. subst r1.
  rewrite (bind_ok_eq _ _ _ _ _ E1) in *.
  destruct (uploadFile net iso_stamp fuel newPath w1) as [[u|e|] w2] eqn:E2.
  - rewrite (bind_ok_eq _ _ _ _ _ E2). apply renameMetadata_old_gone.
  - exfalso. apply (uploadFile_never_exc net iso_stamp fuel newPath w1 e).
    rewrite E2. reflexivity.
  - exfalso. apply Hnf. unfold bind at 1. rewrite E2. reflexivity.
Qed.

(** X20: when the server answers the delete of the old path, the handler's
    renameMetadata step finds no record and changes nothing: the state is
    the one deleteFile and uploadFile leave. *)
Theorem onRename_answered_delete fuel newPath oldPath (w : World Srv) res s' :
  s_token (w_settings w) <> EmptyString ->
  is_tfile (w_vault w !! newPath) = true ->
  oldPath <> newPath ->
  t_delete net oldPath (rev_or0 (w_meta w !! oldPath)) (s_deviceId (w_settings w))
    (w_srv w) = (Answer res, s') ->
  snd (onRename net iso_stamp fuel newPath oldPath w) =
    snd (uploadFile net iso_stamp fuel newPath (snd (deleteFile net oldPath w))).
Proof.
  intros Ht Hf Hne Hd. apply String.eqb_neq in Ht.
  pose proof (deleteFile_answered_clears oldPath w res s' Hd) as Hgone.
  unfold onRename, getSettings, getAbstractFileByPath.
  rewrite !bind_gets_eq. rewrite Ht, Hf. simpl.
  destruct (deleteFile_answers net oldPath w) as [b1 Hb1].
  destruct (deleteFile net oldPath w) as [r1 w1] eqn:E1. simpl in Hb1, Hgone.
  subst r1. rewrite (bind_ok_eq _ _ _ _ _ E1). simpl.
  pose proof (uploadFile_meta_frame newPath oldPath Hne fuel w1) as Hk.
  unfold meta_kept in Hk.
  destruct (uploadFile net iso_stamp fuel newPath w1) as [[u|e|] w2] eqn:E2;
    simpl in Hk; unfold bind; rewrite E2; try reflexivity.
  unfold renameMetadata, getMetadata, gets, bind, ret. rewrite Hk, Hgone.
  reflexivity.
Qed.

(** X21: when the delete of the old path is rejected, the old record is
    moved to the new path, replacing any record the upload stored there. *)
Theorem onRename_offline_moves_record fuel newPath oldPath (w : World Srv) m e s' :
  s_token (w_settings w) <> EmptyString ->
  is_tfile (w_vault w !! newPath) = true ->
  oldPath <> newPath ->
  w_meta w !! oldPath = Some m ->
  t_delete net oldPath (rev_or0 (w_meta w !! oldPath)) (s_deviceId (w_settings w))
    (w_srv w) = (Rejected e, s') ->
  fst (onRename net iso_stamp fuel newPath oldPath w) <> OutOfFuel ->
  w_meta (snd (onRename net iso_stamp fuel newPath oldPath w)) !! newPath =
    Some {| md_path := newPath; md_hash := md_hash m; md_size := md_size m;
            md_revision := md_revision m;
            md_parentRevision := md_parentRevision m;
            md_lastSyncedAt := md_lastSyncedAt m;
            md_deviceId := md_deviceId m |}.
Proof.
  intros Ht Hf Hne Hm Hd Hnf. apply String.eqb_neq in Ht.
  destruct (deleteFile_rejected_keeps oldPath w e s' Hd) as (Hr1 & Hm1 & _).
  unfold onRename, getSettings, getAbstractFileByPath in *.
  rewrite !bind_gets_eq in *. rewrite Ht, Hf in *. simpl in *.
  destruct (deleteFile net oldPath w) as [r1 w1] eqn:E1. simpl in Hr1, Hm1.
  subst r1. rewrite (bind_ok_eq _ _ _ _ _ E1) in *.
  pose proof (uploadFile_meta_frame newPath oldPath Hne fuel w1) as Hk.
  unfold meta_kept in Hk.
  destruct (uploadFile net iso_stamp fuel newPath w1) as [[u|e'|] w2] eqn:E2;
    simpl in Hk.
  - rewrite (bind_ok_eq _ _ _ _ _ E2). apply renameMetadata_moves; [exact Hne|].
    rewrite Hk, Hm1. exact Hm.
  - exfalso. apply (uploadFile_never_exc net iso_stamp fuel newPath w1 e').
    rewrite E2. reflexivity.
  - exfalso. apply Hnf. unfold bind at 1. rewrite E2. reflexivity.
Qed.

(** X18: the auto-merge leaves the stored revision as it was, so against a
    server that keeps flagging that parent as a conflict and keeps merging,
    uploadFile recurses without end: every depth bound runs out. *)
Theorem uploadFile_auto_merge_repeats fuel p (w : World Srv) r cur m :
  0 < r ->
  w_meta w !! p = Some m -> md_revision m = r ->
  is_tfile (w_vault w !! p) = true ->
  (forall c, exists res,
     t_upload net p c r (s_deviceId (w_settings w)) (w_srv w) = (Answer res, w_srv w) /\
     ur_success res = false /\ conflict_flagged res = true /\
     ur_conflict res = Some {| currentRevision := cur; yourParentRevision := r |}) ->
  (exists d, t_download net p (Some cur) (w_srv w) = (Answer d, w_srv w)) ->
  (exists d, t_download net p (Some r) (w_srv w) = (Answer d, w_srv w)) ->
  (forall c, exists mr mc,
     t_merge net p c r cur (w_srv w) = (Answer mr, w_srv w) /\
     merged_content mr = Some mc) ->
  fst (uploadFile net iso_stamp fuel p w) = OutOfFuel.
Proof.
  intros Hr Hm Hmr Hf Hup [d1 Hd1] [d2 Hd2] Hmg.
  remember (w_srv w) as s0 eqn:Hs. remember (s_deviceId (w_settings w)) as dev eqn:Hd.
  assert (Hr0 : (r =? 0) = false) by (apply Z.eqb_neq; lia).
  assert (Hlt : (0 <? r) = true) by (apply Z.ltb_lt; exact Hr).
  revert w Hs Hd Hm Hf. induction fuel as [|fuel IH]; intros w Hs Hd Hm Hf;
    [reflexivity|].
  destruct (w_vault w !! p) as [[c mt|]|] eqn:Hv; try discriminate.
  destruct (Hup c) as (res & Hu & Hs1 & Hc1 & Hc2).
  destruct (Hmg c) as (mr & mc & Hmg' & Hmc).
  cbn [uploadFile]. unfold handleConflict.
  unfold vault_read, vault_modify, getMetadata, getSettings, getAbstractFileByPath,
    date_now, gets, net_call, notice, upd_vault, try_catch, bind, ret, throw.
  simpl. rewrite Hv. simpl. rewrite Hm. simpl. rewrite Hmr, Hr0, <- Hs, <- Hd, Hu.
  simpl. rewrite Hs1, Hc1, Hc2. simpl. rewrite Hd1. simpl. rewrite Hlt. simpl.
  rewrite Hd2. simpl. rewrite Hv. simpl. rewrite Hmg'. simpl. rewrite Hmc. simpl.
  rewrite Hv. simpl.
  match goal with |- context [uploadFile net iso_stamp fuel p ?W] =>
    assert (HW : fst (uploadFile net iso_stamp fuel p W) = OutOfFuel)
      by (apply IH; simpl; rewrite ?lookup_insert_eq; auto);
    destruct (uploadFile net iso_stamp fuel p W) as [res' W'];
    simpl in HW; subst res'
  end.
  reflexivity.
Qed.

End Extras.

(** ** Runs of the engine against the reference server *)

(** C1: a note whose modification time lies after the clock is uploaded
    again by every pass, also by a second pass that follows a successful
    first one with nothing changed in between. *)
Lemma syncVault_second_pass_uploads_again :
  fst (syncVault RefServer.net RefServer.stamp 3 true RefServer.future_note)
    = Ok (Completed 0 1) /\
  fst (syncVault RefServer.net RefServer.stamp 3 true
         (snd (syncVault RefServer.net RefServer.stamp 3 true
                 RefServer.future_note))) = Ok (Completed 0 1).
Proof. split; vm_compute; reflexivity. Qed.

(** C2: n/b.md, at revision 2 on the server and made on top of revision 1,
    is downloaded by the downward phase and stored with parentRevision 1. *)
Lemma downward_stores_server_parent :
  rf_revision RefServer.d2 = Some 2 /\
  fst (syncVault RefServer.net RefServer.stamp 3 true RefServer.fresh_device)
    = Ok (Completed 1 0) /\
  option_map md_revision
    (w_meta (snd (syncVault RefServer.net RefServer.stamp 3 true
                   RefServer.fresh_device)) !! "n/b.md") = Some 2 /\
  option_map md_parentRevision
    (w_meta (snd (syncVault RefServer.net RefServer.stamp 3 true
                   RefServer.fresh_device)) !! "n/b.md") = Some 1.
Proof. repeat split; vm_compute; reflexivity. Qed.

(** C6: when both backup names are taken, the conflict on n/b.md (the merge
    service refusing) creates no backup and leaves the local file as it
    was: the local tree is unchanged. *)
Lemma conflict_without_free_backup_name :
  fst (uploadFile RefServer.net RefServer.stamp 3 "n/b.md"
         RefServer.stale_edit_names_taken) = Ok false /\
  In (ReqMerge "n/b.md" 1 2)
    (w_netlog (snd (uploadFile RefServer.net RefServer.stamp 3 "n/b.md"
                      RefServer.stale_edit_names_taken))) /\
  w_vault (snd (uploadFile RefServer.net RefServer.stamp 3 "n/b.md"
                  RefServer.stale_edit_names_taken))
    = w_vault RefServer.stale_edit_names_taken.
Proof. split; [|split]; vm_compute; [reflexivity | | reflexivity]; tauto. Qed.

(** C7: when the server cannot be reached, deleteFile keeps the record. *)
Lemma deleteFile_offline_keeps_record :
  fst (deleteFile RefServer.offline "a.md" RefServer.synced_note) = Ok false /\
  w_meta (snd (deleteFile RefServer.offline "a.md" RefServer.synced_note))
    !! "a.md" = Some (RefServer.record "a.md" 1 2).
Proof. split; vm_compute; reflexivity. Qed.

(** C8: a successful download of the older revision 1 lowers the stored
    revision from 2 to 1. *)
Lemma downloadFile_older_revision_regresses :
  option_map md_revision (w_meta RefServer.at_rev2 !! "n/b.md") = Some 2 /\
  fst (downloadFile RefServer.net "n/b.md" (Some 1) RefServer.at_rev2) = Ok true /\
  option_map md_revision
    (w_meta (snd (downloadFile RefServer.net "n/b.md" (Some 1)
                   RefServer.at_rev2)) !! "n/b.md") = Some 1.
Proof. repeat split; vm_compute; reflexivity. Qed.

(** C9: with a pass in flight and no token, the answer is the
    not-authenticated one, not the busy signal. *)
Lemma in_flight_without_token :
  fst (syncVault RefServer.net RefServer.stamp 3 false
         (RefServer.in_flight EmptyString)) = Ok NotAuthenticated.
Proof. vm_compute; reflexivity. Qed.

(** ** The theorems applied to concrete runs *)

Lemma syncVault_quiescent_witness :
  fst (syncVault RefServer.net RefServer.stamp 3 true RefServer.synced_note)
    = Ok (Completed 0 0) /\
  w_meta (snd (syncVault RefServer.net RefServer.stamp 3 true
                 RefServer.synced_note)) = w_meta RefServer.synced_note /\
  w_vault (snd (syncVault RefServer.net RefServer.stamp 3 true
                  RefServer.synced_note)) = w_vault RefServer.synced_note.
Proof.
  apply (syncVault_quiescent RefServer.net RefServer.stamp 3 true
           RefServer.synced_note
           {| lr_success := true;
              lr_files := Some [RefServer.describe "a.md"
                                  {| RefServer.v_rev := 1; RefServer.v_parent := 0;
                                     RefServer.v_content := "x" |}];
              lr_error := None |}
           (w_srv RefServer.synced_note)
           [RefServer.describe "a.md"
              {| RefServer.v_rev := 1; RefServer.v_parent := 0;
                 RefServer.v_content := "x" |}]).
  - vm_compute; congruence.
  - reflexivity.
  - reflexivity.
  - reflexivity.
  - reflexivity.
  - constructor; [|constructor].
    eexists; split; [reflexivity | vm_compute; congruence].
  - intros p c mt H _.
    cbn [RefServer.synced_note RefServer.world w_vault] in H.
    apply lookup_singleton_Some in H as [<- Hn].
    injection Hn as <- <-.
    eexists; split; [reflexivity | vm_compute; congruence].
Defined.

Lemma downward_download_metadata_witness :
  exists m,
    w_meta (snd (downward RefServer.net [RefServer.d2] 0 RefServer.fresh_device))
      !! rf_path RefServer.d2 = Some m /\
    md_revision m = or0 (rf_revision (RefServer.describe "n/b.md" RefServer.v2)) /\
    md_parentRevision m =
      or_else (rf_parentRevision (RefServer.describe "n/b.md" RefServer.v2))
        (or0 (rf_revision (RefServer.describe "n/b.md" RefServer.v2))) /\
    md_lastSyncedAt m =
      w_clock (snd (downward RefServer.net [RefServer.d2] 0 RefServer.fresh_device)).
Proof.
  apply (downward_download_metadata RefServer.net RefServer.d2 0
           RefServer.fresh_device (RefServer.describe "n/b.md" RefServer.v2)
           "new" false RefServer.srv_b).
  - reflexivity.
  - reflexivity.
  - vm_compute; congruence.
Defined.

Lemma downward_downloads_iff_witness :
  w_meta RefServer.at_rev2 !! "n/b.md" = Some (RefServer.record "n/b.md" 2 8) /\
  md_revision (RefServer.record "n/b.md" 2 8) = or0 (rf_revision RefServer.d2) /\
  md_hash (RefServer.record "n/b.md" 2 8) <> rf_hash RefServer.d2 /\
  w_netlog (snd (downward RefServer.net
                   [RefServer.d2; RefServer.describe "c.md" RefServer.v1] 0
                   RefServer.at_rev2)) =
    [ReqDownload "c.md" (Some 1)] /\
  (needs_download (w_meta RefServer.at_rev2 !! rf_path RefServer.d2) RefServer.d2
     = true <->
   md_revision (RefServer.record "n/b.md" 2 8) < or0 (rf_revision RefServer.d2)).
Proof.
  assert (Hnd : NoDup (rf_path <$> [RefServer.d2;
                                    RefServer.describe "c.md" RefServer.v1]))
    by (apply (bool_decide_unpack _); vm_compute; reflexivity).
  destruct (downward_downloads_iff RefServer.net RefServer.stamp
              [RefServer.d2; RefServer.describe "c.md" RefServer.v1] 0
              RefServer.at_rev2 Hnd) as [Hlog Hiff].
  split; [reflexivity|].
  split; [reflexivity|].
  split; [vm_compute; intros H; discriminate H|].
  split; [rewrite Hlog; vm_compute; reflexivity|].
  apply Hiff. reflexivity.
Defined.

Lemma uploadFile_success_metadata_witness :
  exists res s',
    t_upload RefServer.net "a.md" "x" (rev_or0 (w_meta RefServer.new_note !! "a.md"))
      (s_deviceId (w_settings RefServer.new_note)) (w_srv RefServer.new_note)
      = (Answer res, s') /\
    ur_success res = true /\
    exists m,
      w_meta (snd (uploadFile RefServer.net RefServer.stamp 4 "a.md"
                     RefServer.new_note)) !! "a.md" = Some m /\
      md_revision m = response_revision (ur_file res) /\
      md_parentRevision m = response_revision (ur_file res) /\
      md_lastSyncedAt m =
        w_clock (snd (uploadFile RefServer.net RefServer.stamp 4 "a.md"
                        RefServer.new_note)).
Proof.
  do 2 eexists. split; [reflexivity|]. split; [reflexivity|].
  eapply (uploadFile_success_metadata RefServer.net RefServer.stamp 3 "a.md"
           RefServer.new_note "x" 0); reflexivity.
Defined.

Lemma uploadFile_conflict_routing_witness :
  t_upload RefServer.net "n/b.md" "mine"
    (rev_or0 (w_meta RefServer.stale_edit !! "n/b.md"))
    (s_deviceId (w_settings RefServer.stale_edit)) (w_srv RefServer.stale_edit)
    = (Answer RefServer.conflict_reply, RefServer.srv_b) /\
  let w1 := snd (net_call (ReqUpload "n/b.md"
                             (rev_or0 (w_meta RefServer.stale_edit !! "n/b.md")))
                  (t_upload RefServer.net "n/b.md" "mine"
                     (rev_or0 (w_meta RefServer.stale_edit !! "n/b.md"))
                     (s_deviceId (w_settings RefServer.stale_edit)))
                  RefServer.stale_edit) in
  uploadFile RefServer.net RefServer.stamp 3 "n/b.md" RefServer.stale_edit =
    if conflict_flagged RefServer.conflict_reply then
      bind (handleConflict RefServer.net RefServer.stamp
              (uploadFile RefServer.net RefServer.stamp 2) "n/b.md"
              RefServer.conflict_reply)
        (fun _ => ret false) w1
    else (Ok false, w1).
Proof.
  split; [reflexivity|].
  apply (uploadFile_conflict_routing RefServer.net RefServer.stamp 2 "n/b.md"
           RefServer.stale_edit "mine" 7 RefServer.conflict_reply RefServer.srv_b);
    reflexivity.
Defined.

Lemma handleConflict_manual_fallback_witness :
  exists backupPath,
    (backupPath = backup_primary RefServer.stamp "n/b.md"
                    (w_clock RefServer.stale_edit + 1 + 2) \/
     backupPath = backup_fallback RefServer.stamp "n/b.md"
                    (w_clock RefServer.stale_edit + 1 + 2)) /\
    w_vault RefServer.stale_edit !! backupPath = None /\
    w_vault (snd (handleConflict RefServer.net RefServer.stamp
                    (uploadFile RefServer.net RefServer.stamp 2) "n/b.md"
                    RefServer.conflict_reply RefServer.stale_edit)) =
      <["n/b.md" := NFile (conflict_document "mine"
                      (default EmptyString
                         (dr_content (RefServer.served "n/b.md" RefServer.v2)))
                      backupPath) (w_clock RefServer.stale_edit + 1 + 2)]>
        (<[backupPath := NFile (default EmptyString
                         (dr_content (RefServer.served "n/b.md" RefServer.v2)))
                          (w_clock RefServer.stale_edit + 1 + 2)]>
           (w_vault RefServer.stale_edit)) /\
    w_meta (snd (handleConflict RefServer.net RefServer.stamp
                   (uploadFile RefServer.net RefServer.stamp 2) "n/b.md"
                   RefServer.conflict_reply RefServer.stale_edit))
      = w_meta RefServer.stale_edit.
Proof.
  apply (handleConflict_manual_fallback RefServer.net RefServer.stamp
           (uploadFile RefServer.net RefServer.stamp 2) "n/b.md"
           RefServer.stale_edit RefServer.conflict_reply
           {| currentRevision := 2; yourParentRevision := 1 |} "mine" 7
           (RefServer.served "n/b.md" RefServer.v2) RefServer.srv_b
           RefServer.srv_b 2).
  - reflexivity.
  - reflexivity.
  - reflexivity.
  - eapply merge_refused; [vm_compute; reflexivity | reflexivity | reflexivity
                           | reflexivity].
  - left; vm_compute; reflexivity.
Defined.

Lemma deleteFile_clears_metadata_witness :
  w_meta (snd (deleteFile RefServer.net "a.md" RefServer.synced_note)) !! "a.md"
    = None.
Proof.
  eapply (deleteFile_clears_metadata RefServer.net "a.md" RefServer.synced_note).
  reflexivity.
Defined.

Lemma stored_revision_is_servers_witness :
  (exists m,
     w_meta (snd (downloadFile RefServer.net "n/b.md" (Some 1) RefServer.at_rev2))
       !! "n/b.md" = Some m /\
     md_revision m = or0 (rf_revision (RefServer.describe "n/b.md" RefServer.v1))) /\
  (fst (downloadFile RefServer.net "n/b.md" (Some 2) RefServer.folder_in_the_way)
     = Ok true /\
   w_meta (snd (downloadFile RefServer.net "n/b.md" (Some 2)
                  RefServer.folder_in_the_way)) = w_meta RefServer.folder_in_the_way) /\
  (exists m,
     w_meta (snd (uploadFile RefServer.net RefServer.stamp 4 "a.md"
                    RefServer.new_note)) !! "a.md" = Some m /\
     md_revision m = 1).
Proof.
  split; [|split].
  - apply (proj1 (stored_revision_is_servers RefServer.net RefServer.stamp
                    RefServer.at_rev2 "n/b.md") (Some 1)
             (RefServer.describe "n/b.md" RefServer.v1) "old" false
             RefServer.srv_b).
    + reflexivity.
    + vm_compute; congruence.
  - apply (proj1 (proj2 (stored_revision_is_servers RefServer.net RefServer.stamp
                           RefServer.folder_in_the_way "n/b.md")) (Some 2)
             RefServer.d2 "new" false RefServer.srv_b).
    + reflexivity.
    + reflexivity.
  - apply (proj2 (proj2 (stored_revision_is_servers RefServer.net RefServer.stamp
                           RefServer.new_note "a.md")) 3%nat "x" 0
             {| ur_success := true;
                ur_file := Some (RefServer.describe "a.md"
                                   {| RefServer.v_rev := 1; RefServer.v_parent := 0;
                                      RefServer.v_content := "x" |});
                ur_error := None; ur_conflict := None |}
             {[ "a.md" := [{| RefServer.v_rev := 1; RefServer.v_parent := 0;
                              RefServer.v_content := "x" |}] ]}).
    + reflexivity.
    + reflexivity.
    + reflexivity.
Defined.

Lemma syncVault_in_flight_witness :
  syncVault RefServer.net RefServer.stamp 3 false (RefServer.in_flight "token") =
    if String.eqb (s_token (w_settings (RefServer.in_flight "token"))) EmptyString
    then
      (Ok NotAuthenticated,
       snd (notice "Not authenticated. Please configure your API token."
              (RefServer.in_flight "token")))
    else
      (Ok Busy, snd (notice "Sync already in progress..."
                       (RefServer.in_flight "token"))).
Proof.
  apply (syncVault_in_flight RefServer.net RefServer.stamp 3 false
           (RefServer.in_flight "token")).
  reflexivity.
Defined.

Lemma single_file_ops_never_throw_witness :
  fst (uploadFile RefServer.offline RefServer.stamp (S 3) "a.md" RefServer.new_note)
    = Ok false /\
  fst (downloadFile RefServer.offline "a.md" None RefServer.new_note) = Ok false /\
  fst (deleteFile RefServer.offline "a.md" RefServer.new_note) = Ok false /\
  fst (uploadFile RefServer.net RefServer.stamp (S 3) "n" RefServer.stale_edit)
    = Ok false /\
  fst (uploadFile RefServer.net RefServer.stamp (S 3) "a.md" RefServer.disk_full)
    = Ok false /\
  fst (downloadFile RefServer.net "a.md" (Some 1) RefServer.disk_full) = Ok false /\
  fst (deleteFile RefServer.net "a.md" RefServer.disk_full) = Ok false.
Proof.
  destruct (single_file_ops_never_throw RefServer.offline RefServer.stamp 3 "a.md"
              None RefServer.new_note) as (_ & _ & _ & Hu & Hd & Hx & _).
  destruct (single_file_ops_never_throw RefServer.net RefServer.stamp 3 "n"
              None RefServer.stale_edit) as (_ & _ & _ & _ & _ & _ & _ & _ & _ & Ht & _).
  destruct (single_file_ops_never_throw RefServer.net RefServer.stamp 3 "a.md"
              (Some 1) RefServer.disk_full)
    as (_ & _ & _ & _ & _ & _ & _ & _ & _ & _ & Hsu & Hsd & Hsx).
  split; [eapply Hu; reflexivity|].
  split; [eapply Hd; reflexivity|].
  split; [eapply Hx; reflexivity|].
  split; [apply Ht; reflexivity|].
  split; [eapply Hsu; reflexivity|].
  split; [apply Hsd; [reflexivity | vm_compute; congruence]|].
  apply Hsx; [reflexivity | vm_compute; congruence].
Defined.

(** ** The further properties applied to concrete runs *)

Lemma saveMetadata_compose_witness :
  w_disk_ok RefServer.synced_note = true /\
  bind (saveMetadata "a.md" (RefServer.revision_patch 3))
    (fun _ => saveMetadata "a.md" (RefServer.synced_at_patch 9))
    RefServer.synced_note =
  saveMetadata "a.md"
    (patch_over (RefServer.synced_at_patch 9) (RefServer.revision_patch 3))
    RefServer.synced_note.
Proof.
  split; [reflexivity|]. apply saveMetadata_compose. reflexivity.
Defined.

Lemma saveMetadata_write_failure_witness :
  w_disk_ok RefServer.disk_full = false /\
  fst (saveMetadata "a.md" (RefServer.revision_patch 3) RefServer.disk_full) =
    Exc "ENOSPC: no space left on device".
Proof.
  split; [reflexivity|].
  destruct (saveMetadata_write_failure "a.md" (RefServer.revision_patch 3)
              RefServer.disk_full eq_refl) as [H _].
  exact H.
Defined.

Lemma shouldSyncFile_ignores_folders_witness :
  ~ In "/"%char (list_ascii_of_string "a.md") /\
  shouldSyncFile ("notes" ++ String "/" "a.md")%string = shouldSyncFile "a.md".
Proof.
  assert (Hn : ~ In "/"%char (list_ascii_of_string "a.md"))
    by (simpl; intuition discriminate).
  split; [exact Hn|]. apply shouldSyncFile_ignores_folders. exact Hn.
Defined.

Lemma uploadFile_not_a_file_witness :
  is_tfile (w_vault RefServer.stale_edit !! "n") = false /\
  uploadFile RefServer.net RefServer.stamp 4 "n" RefServer.stale_edit =
    (Ok false, RefServer.stale_edit).
Proof.
  split; [reflexivity|]. apply uploadFile_not_a_file. reflexivity.
Defined.

Lemma downloadFile_unusable_answer_witness :
  match fst (t_download RefServer.net "x.md" None (w_srv RefServer.fresh_device)) with
  | Answer r => dr_success r = false \/ dr_file r = None \/ dr_content r = None
  | Rejected _ => True
  end /\
  fst (downloadFile RefServer.net "x.md" None RefServer.fresh_device) = Ok false.
Proof.
  assert (H : match fst (t_download RefServer.net "x.md" None
                           (w_srv RefServer.fresh_device)) with
              | Answer r => dr_success r = false \/ dr_file r = None \/
                            dr_content r = None
              | Rejected _ => True
              end) by (vm_compute; left; reflexivity).
  split; [exact H|].
  destruct (downloadFile_unusable_answer RefServer.net "x.md" None
              RefServer.fresh_device H) as [H1 _].
  exact H1.
Defined.

Lemma downloadFile_onto_folder_witness :
  t_download RefServer.net "n/b.md" (Some 2) (w_srv RefServer.folder_in_the_way) =
    (Answer {| dr_success := true; dr_file := Some RefServer.d2;
               dr_content := Some "new"%string; dr_isConflict := false |},
     RefServer.srv_b) /\
  w_vault RefServer.folder_in_the_way !! "n/b.md" = Some NFolder /\
  fst (downloadFile RefServer.net "n/b.md" (Some 2) RefServer.folder_in_the_way)
    = Ok true.
Proof.
  assert (H1 : t_download RefServer.net "n/b.md" (Some 2)
                 (w_srv RefServer.folder_in_the_way) =
               (Answer {| dr_success := true; dr_file := Some RefServer.d2;
                          dr_content := Some "new"%string; dr_isConflict := false |},
                RefServer.srv_b)) by (vm_compute; reflexivity).
  assert (H2 : w_vault RefServer.folder_in_the_way !! "n/b.md" = Some NFolder)
    by (vm_compute; reflexivity).
  split; [exact H1|split; [exact H2|]].
  destruct (downloadFile_onto_folder RefServer.net "n/b.md" (Some 2)
              RefServer.folder_in_the_way _ _ _ _ H1 H2) as [H _].
  exact H.
Defined.


Lemma syncVault_list_failure_witness :
  s_token (w_settings RefServer.new_note) <> EmptyString /\
  w_syncing RefServer.new_note = false /\
  fst (syncVault RefServer.offline RefServer.stamp 3 false RefServer.new_note) =
    Ok (SyncFailed "Network error").
Proof.
  assert (Ht : s_token (w_settings RefServer.new_note) <> EmptyString)
    by (vm_compute; intros H; discriminate H).
  assert (Hs : w_syncing RefServer.new_note = false) by reflexivity.
  split; [exact Ht|split; [exact Hs|]].
  destruct (syncVault_list_failure RefServer.offline RefServer.stamp 3 false
              RefServer.new_note "Network error" Ht Hs eq_refl) as [H _].
  exact H.
Defined.

Lemma handleConflict_auto_merge_witness :
  exists w'',
    handleConflict RefServer.merging RefServer.stamp (fun _ => ret true) "n/b.md"
      RefServer.conflict_reply RefServer.stale_edit = (Ok tt, w'') /\
    w_vault w'' !! "n/b.md" = Some (NFile "merged" 13).
Proof.
  eexists. split.
  - eapply (handleConflict_auto_merge RefServer.merging RefServer.stamp
              (fun _ => ret true) "n/b.md" RefServer.conflict_reply
              {| currentRevision := 2; yourParentRevision := 1 |}
              RefServer.stale_edit "mine" 7); reflexivity.
  - vm_compute. reflexivity.
Defined.

Lemma uploadFile_auto_merge_repeats_witness :
  fst (uploadFile RefServer.merging RefServer.stamp 5 "n/b.md" RefServer.stale_edit)
    = OutOfFuel.
Proof.
  apply (uploadFile_auto_merge_repeats RefServer.merging RefServer.stamp 5 "n/b.md"
           RefServer.stale_edit 1 2 (RefServer.record "n/b.md" 1 5)).
  - reflexivity.
  - reflexivity.
  - reflexivity.
  - reflexivity.
  - intros c. exists RefServer.conflict_reply.
    split; [reflexivity|split; [reflexivity|split; reflexivity]].
  - eexists. reflexivity.
  - eexists. reflexivity.
  - intros c. eexists _, _. split; reflexivity.
Defined.

Lemma onRename_old_record_gone_witness :
  s_token (w_settings RefServer.renamed_note) <> EmptyString /\
  is_tfile (w_vault RefServer.renamed_note !! "b.md") = true /\
  fst (onRename RefServer.net RefServer.stamp 3 "b.md" "a.md" RefServer.renamed_note)
    <> OutOfFuel /\
  w_meta (snd (onRename RefServer.net RefServer.stamp 3 "b.md" "a.md"
                 RefServer.renamed_note)) !! "a.md" = None.
Proof.
  assert (Ht : s_token (w_settings RefServer.renamed_note) <> EmptyString)
    by (vm_compute; intros H; discriminate H).
  assert (Hf : is_tfile (w_vault RefServer.renamed_note !! "b.md") = true)
    by reflexivity.
  assert (Hn : fst (onRename RefServer.net RefServer.stamp 3 "b.md" "a.md"
                      RefServer.renamed_note) <> OutOfFuel)
    by (vm_compute; intros H; discriminate H).
  split; [exact Ht|split; [exact Hf|split; [exact Hn|]]].
  exact (onRename_old_record_gone RefServer.net RefServer.stamp 3 "b.md" "a.md"
           RefServer.renamed_note Ht Hf Hn).
Defined.

Lemma onRename_answered_delete_witness :
  snd (onRename RefServer.net RefServer.stamp 3 "b.md" "a.md" RefServer.renamed_note) =
  snd (uploadFile RefServer.net RefServer.stamp 3 "b.md"
         (snd (deleteFile RefServer.net "a.md" RefServer.renamed_note))).
Proof.
  eapply onRename_answered_delete.
  - vm_compute. intros H. discriminate H.
  - reflexivity.
  - intros H. discriminate H.
  - reflexivity.
Defined.

Lemma onRename_offline_moves_record_witness :
  w_meta (snd (onRename RefServer.offline RefServer.stamp 3 "b.md" "a.md"
                 RefServer.renamed_note)) !! "b.md" =
    Some (RefServer.record "b.md" 1 2).
Proof.
  eapply (onRename_offline_moves_record RefServer.offline RefServer.stamp 3
            "b.md" "a.md" RefServer.renamed_note (RefServer.record "a.md" 1 2)).
  - vm_compute. intros H. discriminate H.
  - reflexivity.
  - intros H. discriminate H.
  - reflexivity.
  - reflexivity.
  - vm_compute. intros H. discriminate H.
Defined.
